(** * PiNet API: validators, authentication gate and the two handlers

    A shallow embedding of [app.py].  Python strings are sequences of Unicode
    code points, JSON values are a small inductive type, the [re] patterns of
    the two validators are regex syntax trees run by a backtracking matcher,
    and the handlers return the trace of their effects (log lines, the ping
    subprocess, the magic packet) together with their response.

    After the server come [generate_api_key.py], over a file system given by
    its operations, and the questions [test_app.py] asks before it runs. *)

From Stdlib Require Import Ascii String.
From Stdlib Require Import List NArith ZArith Bool Lia PrimFloat.
Import ListNotations.

Set Implicit Arguments.
Set Warnings "-register-all".
Local Open Scope N_scope.

(** ** Python strings *)

(** A [str] is a sequence of code points. *)
Definition pystr := list N.

Definition ord (a : ascii) : N := N_of_ascii a.

(** The code points of a string literal. *)
Definition str (s : string) : pystr := map ord (list_ascii_of_string s).

Fixpoint str_eqb (a b : pystr) : bool :=
  match a, b with
  | [], [] => true
  | x :: a', y :: b' => N.eqb x y && str_eqb a' b'
  | _, _ => false
  end.

(** [str.isspace] on one code point: the characters [str.strip()] removes. *)
Definition isspace (c : N) : bool :=
  ((9 <=? c) && (c <=? 13)) || ((28 <=? c) && (c <=? 32))
  || (c =? 133) || (c =? 160) || (c =? 5760)
  || ((8192 <=? c) && (c <=? 8202))
  || (c =? 8232) || (c =? 8233) || (c =? 8239) || (c =? 8287) || (c =? 12288).

Fixpoint lstrip (s : pystr) : pystr :=
  match s with
  | c :: t => if isspace c then lstrip t else s
  | [] => []
  end.

Definition rstrip (s : pystr) : pystr := rev (lstrip (rev s)).

(** [s.strip()] *)
Definition strip (s : pystr) : pystr := rstrip (lstrip s).

(** ** Python values

    The values a JSON body parses to, which are also the values the two
    validators may be handed. *)
Inductive pyval :=
| PyNone
| PyBool (b : bool)
| PyInt (n : Z)
| PyFloat (x : float)
| PyStr (s : pystr)
| PyList (l : list pyval)
| PyDict (d : list (pystr * pyval)).

(** [bool(v)], the test behind [not v]. *)
Definition truthy (v : pyval) : bool :=
  match v with
  | PyNone => false
  | PyBool b => b
  | PyInt n => negb (n =? 0)%Z
  | PyFloat x => negb (PrimFloat.eqb x 0%float)
  | PyStr s => match s with [] => false | _ => true end
  | PyList l => match l with [] => false | _ => true end
  | PyDict d => match d with [] => false | _ => true end
  end.

(** [isinstance(v, str)] *)
Definition is_str (v : pyval) : bool :=
  match v with PyStr _ => true | _ => false end.

(** ** Regular expressions

    The fragment of [re] syntax the two validators use. *)
Inductive regex :=
| Bol                              (* ^ *)
| Eol                              (* $ *)
| Cls (p : N -> bool)              (* a literal or a bracket class *)
| Seq (a b : regex)
| Alt (a b : regex)                (* a|b *)
| Opt (a : regex)                  (* a? *)
| Rep (n : nat) (a : regex).       (* a{n} *)

Definition Lit (a : ascii) : regex := Cls (fun c => c =? ord a).

Definition in_range (lo hi : ascii) (c : N) : bool :=
  (ord lo <=? c) && (c <=? ord hi).

Definition Range (lo hi : ascii) : regex := Cls (in_range lo hi).

(** The backtracking matcher: every way [r] can match at the head of [s],
    as the list of what is left of [s], in the order the engine tries them
    (left alternative first, optional part taken first).  [subject] is the
    whole string, which [^] needs to know where it is. *)
Fixpoint run (subject : pystr) (r : regex) (s : pystr) : list pystr :=
  match r with
  | Bol => if (length s =? length subject)%nat then [s] else []
  | Eol => match s with
           | [] => [s]
           | [c] => if c =? 10 then [s] else []
           | _ => []
           end
  | Cls p => match s with
             | c :: t => if p c then [t] else []
             | [] => []
             end
  | Seq a b => flat_map (run subject b) (run subject a s)
  | Alt a b => run subject a s ++ run subject b s
  | Opt a => run subject a s ++ [s]
  | Rep n a =>
      Nat.iter n (fun k s' => flat_map k (run subject a s')) (fun s' => [s']) s
  end.

(** [bool(pattern.match(s))] *)
Definition re_match (pattern : regex) (s : pystr) : bool :=
  match run s pattern s with
  | [] => false
  | _ :: _ => true
  end.

(** ** Input validation *)

(** (?:25[0-5]|2[0-4][0-9]|[01]?[0-9][0-9]?) *)
Definition octet_pattern : regex :=
  Alt (Seq (Lit "2") (Seq (Lit "5") (Range "0" "5")))
 (Alt (Seq (Lit "2") (Seq (Range "0" "4") (Range "0" "9")))
      (Seq (Opt (Range "0" "1")) (Seq (Range "0" "9") (Opt (Range "0" "9"))))).

Definition ipv4_pattern : regex :=
  Seq Bol
 (Seq (Rep 3 (Seq octet_pattern (Lit ".")))
 (Seq octet_pattern
      Eol)).

Definition validate_ip_address (ip_address : pyval) : bool :=
  if negb (truthy ip_address) || negb (is_str ip_address) then false
  else match ip_address with
       | PyStr s => re_match ipv4_pattern (strip s)
       | _ => false
       end.

(** [0-9A-Fa-f] *)
Definition hex_class (c : N) : bool :=
  in_range "0" "9" c || in_range "A" "F" c || in_range "a" "f" c.

Definition mac_patterns : list regex :=
  [ Seq Bol (Seq (Rep 5 (Seq (Rep 2 (Cls hex_class)) (Lit ":")))
            (Seq (Rep 2 (Cls hex_class)) Eol));
    Seq Bol (Seq (Rep 5 (Seq (Rep 2 (Cls hex_class)) (Lit "-")))
            (Seq (Rep 2 (Cls hex_class)) Eol));
    Seq Bol (Seq (Rep 12 (Cls hex_class)) Eol) ].

Definition validate_mac_address (mac_address : pyval) : bool :=
  if negb (truthy mac_address) || negb (is_str mac_address) then false
  else match mac_address with
       | PyStr s =>
           let mac_address := strip s in
           existsb (fun pattern => re_match pattern mac_address) mac_patterns
       | _ => false
       end.

(** ** Requests, responses and effects *)

(** What a handler reads from Flask's [request]. *)
Record request := {
  remote_addr : pystr;
  header_X_API_Key : option pystr;   (* request.headers.get('X-API-Key') *)
  get_json : pyval                   (* request.get_json(); None when there is no JSON body *)
}.

Definition json := list (pystr * pystr).

(** [jsonify({...})] of a dict whose values are strings. *)
Definition jsonify (d : list (pystr * pystr)) : json := d.

(** A view returns [jsonify(...), status]. *)
Definition response := (json * Z)%type.

Inductive exn_kind := TimeoutExpired | OtherException.

(** A raised [Exception]; [exn_str e] is [str(e)]. *)
Record exn := { exn_kind_of : exn_kind; exn_str : pystr }.

(** [subprocess.run(...)] either completes with a return code or raises. *)
Inductive run_result :=
| Completed (returncode : Z)
| RunRaised (e : exn).

Inductive level := INFO | WARNING | ERROR.

(** What a handler does to the outside world, in order. *)
Inductive event :=
| Log (lvl : level) (message : pystr)
| SubprocessRun (argv : list pystr) (timeout : Z)
| SendMagicPacket (mac : pyval).

Inductive outcome :=
| Respond (r : response)
| Raise (e : exn).

Definition view (A : Type) := A -> request -> list event * outcome.

(** [dict.get(key)]: a dict is the list of its items, with distinct keys. *)
Definition dict_lookup (d : list (pystr * pyval)) (key : pystr) : option pyval :=
  match find (fun item => str_eqb (fst item) key) d with
  | Some item => Some (snd item)
  | None => None
  end.

Definition dict_get (d : list (pystr * pyval)) (key : pystr) : pyval :=
  match dict_lookup d key with
  | Some v => v
  | None => PyNone
  end.

(** [type(v).__name__] *)
Definition type_name (v : pyval) : pystr :=
  match v with
  | PyNone => str "NoneType"
  | PyBool _ => str "bool"
  | PyInt _ => str "int"
  | PyFloat _ => str "float"
  | PyStr _ => str "str"
  | PyList _ => str "list"
  | PyDict _ => str "dict"
  end.

(** Truth value of an [Optional[str]]. *)
Definition opt_truthy (o : option pystr) : bool :=
  match o with
  | Some s => truthy (PyStr s)
  | None => false
  end.

(** [o != key] for an [Optional[str]] and a string. *)
Definition opt_differs (o : option pystr) (key : pystr) : bool :=
  match o with
  | Some s => negb (str_eqb s key)
  | None => true
  end.

(** Module start-up: [API_KEY = os.getenv('API_KEY')], and the process exits
    ([None]) when it is not set. *)
Definition load_api_key (getenv : pystr -> option pystr) : option pystr :=
  let API_KEY := getenv (str "API_KEY") in
  if negb (opt_truthy API_KEY) then None else API_KEY.

Section Server.

(** The key the module loaded. *)
Variable API_KEY : pystr.

(** The outside world: the ping subprocess and the [wakeonlan] sender. *)
Variable subprocess_run : list pystr -> Z -> run_result.
Variable send_magic_packet : pyval -> option exn.

(** [str(v)] of a value that is not a string, as f-strings format it. *)
Variable format_other : pyval -> pystr.

Definition py_str (v : pyval) : pystr :=
  match v with
  | PyStr s => s
  | _ => format_other v
  end.

Definition require_api_key (A : Type) (f : view A) : view A :=
  fun args req =>
    let provided_key := header_X_API_Key req in
    if negb (opt_truthy provided_key) then
      ([Log WARNING (str "Unauthorized access attempt from " ++ remote_addr req
                     ++ str " - No API key provided")],
       Respond (jsonify [(str "status", str "error");
                         (str "message", str "API key required")], 401%Z))
    else if opt_differs provided_key API_KEY then
      ([Log WARNING (str "Unauthorized access attempt from " ++ remote_addr req
                     ++ str " - Invalid API key")],
       Respond (jsonify [(str "status", str "error");
                         (str "message", str "Invalid API key")], 401%Z))
    else f args req.

Definition ping_argv (ip_address : pystr) : list pystr :=
  [str "ping"; str "-c"; str "1"; str "-W"; str "2"; ip_address].

Definition ping_host : view pystr :=
  fun ip_address req =>
    if negb (validate_ip_address (PyStr ip_address)) then
      ([Log WARNING (str "Invalid IP address format received: " ++ ip_address)],
       Respond (jsonify [(str "status", str "error");
                         (str "message", str "Invalid IP address format.")], 400%Z))
    else
      let call := SubprocessRun (ping_argv ip_address) 5 in
      match subprocess_run (ping_argv ip_address) 5 with
      | Completed returncode =>
          if (returncode =? 0)%Z then
            ([call; Log INFO (str "Ping successful: " ++ ip_address ++ str " is online")],
             Respond (jsonify [(str "ip_address", ip_address);
                               (str "status", str "online")], 200%Z))
          else
            ([call; Log INFO (str "Ping failed: " ++ ip_address ++ str " is offline")],
             Respond (jsonify [(str "ip_address", ip_address);
                               (str "status", str "offline")], 200%Z))
      | RunRaised e =>
          match exn_kind_of e with
          | TimeoutExpired =>
              ([call; Log INFO (str "Ping timeout: " ++ ip_address ++ str " is offline")],
               Respond (jsonify [(str "ip_address", ip_address);
                                 (str "status", str "offline")], 200%Z))
          | OtherException =>
              ([call; Log ERROR (str "Error pinging " ++ ip_address ++ str ": " ++ exn_str e)],
               Respond (jsonify [(str "status", str "error");
                                 (str "message", str "Internal error executing ping")], 500%Z))
          end
      end.

Definition wake_on_lan : view unit :=
  fun _ req =>
    let data := get_json req in
    if negb (truthy data) then
      ([Log WARNING (str "WoL request received with no JSON body")],
       Respond (jsonify [(str "status", str "error");
                         (str "message", str "Request body must be JSON")], 400%Z))
    else
      match data with
      | PyDict d =>
          let mac_address := dict_get d (str "mac_address") in
          if negb (truthy mac_address) then
            ([Log WARNING (str "WoL request received without mac_address field")],
             Respond (jsonify [(str "status", str "error");
                               (str "message", str "Missing mac_address field in request body")],
                      400%Z))
          else if negb (validate_mac_address mac_address) then
            ([Log WARNING (str "Invalid MAC address format received: " ++ py_str mac_address)],
             Respond (jsonify [(str "status", str "error");
                               (str "message", str "Invalid MAC address format.")], 400%Z))
          else
            match send_magic_packet mac_address with
            | None =>
                ([SendMagicPacket mac_address;
                  Log INFO (str "Wake-on-LAN packet sent successfully to " ++ py_str mac_address)],
                 Respond (jsonify [(str "status", str "success");
                                   (str "message",
                                    str "Wake-on-LAN packet sent to " ++ py_str mac_address)],
                          200%Z))
            | Some e =>
                ([SendMagicPacket mac_address;
                  Log ERROR (str "Error sending WoL packet to " ++ py_str mac_address
                             ++ str ": " ++ exn_str e)],
                 Respond (jsonify [(str "status", str "error");
                                   (str "message", str "Failed to send Wake-on-LAN packet")],
                          500%Z))
            end
      | _ =>
          (* data.get on a value that is not a dict: AttributeError *)
          ([], Raise {| exn_kind_of := OtherException;
                        exn_str := str "'" ++ type_name data
                                   ++ str "' object has no attribute 'get'" |})
      end.

(** [@app.errorhandler(Exception)] *)
Definition handle_exception (error : exn) : list event * response :=
  ([Log ERROR (str "Unhandled exception: " ++ exn_str error)],
   (jsonify [(str "status", str "error");
             (str "message", str "An unexpected error occurred")], 500%Z)).

(** Flask calling a view: what the view raises goes to [handle_exception]. *)
Definition serve (r : list event * outcome) : list event * response :=
  match r with
  | (trace, Respond resp) => (trace, resp)
  | (trace, Raise e) => (trace ++ fst (handle_exception e), snd (handle_exception e))
  end.

(** [@app.route('/ping/<ip_address>', methods=['GET'])] over [@require_api_key] *)
Definition GET_ping (ip_address : pystr) (req : request) : list event * response :=
  serve (require_api_key ping_host ip_address req).

(** [@app.route('/wol', methods=['POST'])] over [@require_api_key] *)
Definition POST_wol (req : request) : list event * response :=
  serve (require_api_key wake_on_lan tt req).

End Server.

(** ** Response shapes and sample inputs *)

(** {"status": "error", "message": <message>} *)
Definition error_body (message : string) : json :=
  jsonify [(str "status", str "error"); (str "message", str message)].

(** {"ip_address": <addr>, "status": <status>} *)
Definition ping_body (ip_address : pystr) (status : string) : json :=
  jsonify [(str "ip_address", ip_address); (str "status", str status)].

(** {"status": "success", "message": "Wake-on-LAN packet sent to <mac>"} *)
Definition wol_sent_body (mac : pystr) : json :=
  jsonify [(str "status", str "success");
           (str "message", str "Wake-on-LAN packet sent to " ++ mac)].

Definition sample_key : pystr := str "secret".

Definition sample_request (key : option pystr) (body : pyval) : request :=
  {| remote_addr := str "192.168.1.20"; header_X_API_Key := key; get_json := body |}.

Definition ping_exits (returncode : Z) : list pystr -> Z -> run_result :=
  fun _ _ => Completed returncode.

Definition send_succeeds : pyval -> option exn := fun _ => None.

Definition sample_format : pyval -> pystr := fun _ => str "?".

Definition sample_view : view unit :=
  fun _ _ => ([], Respond (jsonify [(str "status", str "ok")], 200%Z)).

(** ** Reading a trace *)

(** The values handed to [send_magic_packet], in order. *)
Definition sent_packets (trace : list event) : list pyval :=
  flat_map (fun ev => match ev with SendMagicPacket mac => [mac] | _ => [] end) trace.

(** The subprocess calls made, in order, each with its timeout. *)
Definition subprocess_calls (trace : list event) : list (list pystr * Z) :=
  flat_map (fun ev => match ev with
                      | SubprocessRun argv timeout => [(argv, timeout)]
                      | _ => []
                      end) trace.

(** The lines logged, in order. *)
Definition logged (trace : list event) : list pystr :=
  flat_map (fun ev => match ev with Log _ message => [message] | _ => [] end) trace.

(** Two results of [subprocess.run] that differ at most in the text of the
    exception raised. *)
Definition same_run_outcome (a b : run_result) : Prop :=
  match a, b with
  | Completed x, Completed y => x = y
  | RunRaised e, RunRaised e' => exn_kind_of e = exn_kind_of e'
  | _, _ => False
  end.

(** Two results of [send_magic_packet] that differ at most in the text of the
    exception raised. *)
Definition same_send_outcome (a b : option exn) : Prop :=
  match a, b with
  | None, None => True
  | Some _, Some _ => True
  | _, _ => False
  end.

(** * generate_api_key.py *)

(** ANSI colour codes. *)
Module Colors.
Definition GREEN : pystr := 27 :: str "[92m".
Definition RED : pystr := 27 :: str "[91m".
Definition YELLOW : pystr := 27 :: str "[93m".
Definition BLUE : pystr := 27 :: str "[94m".
Definition CYAN : pystr := 27 :: str "[96m".
Definition BOLD : pystr := 27 :: str "[1m".
Definition END : pystr := 27 :: str "[0m".
End Colors.

(** What the script writes to the terminal: the text of each [print] call
    and the prompt of [input]. *)
Inductive output :=
| Print (text : pystr)
| Prompt (text : pystr).

(** The marks are U+2713, U+2717, U+279C and U+26A0. *)
Definition print_success (message : pystr) : list output :=
  [Print (Colors.GREEN ++ [10003; 32] ++ message ++ Colors.END)].

Definition print_error (message : pystr) : list output :=
  [Print (Colors.RED ++ [10007; 32] ++ message ++ Colors.END)].

Definition print_info (message : pystr) : list output :=
  [Print (Colors.CYAN ++ [10140; 32] ++ message ++ Colors.END)].

Definition print_warning (message : pystr) : list output :=
  [Print (Colors.YELLOW ++ [9888; 32] ++ message ++ Colors.END)].

(** Text-mode reading with the default [newline=None]: "\r\n" and a lone
    "\r" are read as "\n". *)
Fixpoint universal_newlines (s : pystr) : pystr :=
  match s with
  | [] => []
  | c :: t =>
      if c =? 13 then
        10 :: match t with
              | d :: t' => if d =? 10 then universal_newlines t' else universal_newlines t
              | [] => []
              end
      else c :: universal_newlines t
  end.

(** The lines of a text, each with its "\n" kept; the last one may lack it. *)
Fixpoint split_lines (s : pystr) : list pystr :=
  match s with
  | [] => []
  | c :: t =>
      if c =? 10 then [c] :: split_lines t
      else match split_lines t with
           | [] => [[c]]
           | l :: ls => (c :: l) :: ls
           end
  end.

(** [f.readlines()] on a file whose decoded content is [content]. *)
Definition readlines (content : pystr) : list pystr :=
  split_lines (universal_newlines content).

(** [s.startswith(prefix)] *)
Fixpoint startswith (s prefix : pystr) {struct prefix} : bool :=
  match prefix with
  | [] => true
  | p :: prefix' =>
      match s with
      | c :: s' => (c =? p) && startswith s' prefix'
      | [] => false
      end
  end.

(** The loop of [update_env_file] over the lines read: the new lines and
    whether any line was replaced. *)
Definition replace_api_key_lines (api_key : pystr) (lines : list pystr)
  : list pystr * bool :=
  fold_left
    (fun (state : list pystr * bool) line =>
       let (new_lines, updated) := state in
       if startswith (strip line) (str "API_KEY=") then
         (new_lines ++ [str "API_KEY=" ++ api_key ++ [10]], true)
       else
         (new_lines ++ [line], updated))
    lines ([], false).

(** [os.path.join(a, b)] on POSIX. *)
Definition path_join (a b : pystr) : pystr :=
  if startswith b (str "/") then b
  else match rev a with
       | [] => b
       | c :: _ => if c =? ord "/" then a ++ b else a ++ str "/" ++ b
       end.

(** What [input] gives back: the line typed, an exception such as
    [EOFError], or Ctrl-C. *)
Inductive input_result :=
| Typed (line : pystr)
| InputRaised (e : exn)
| KeyboardInterrupt.

(** How a run of the script ends. *)
Inductive termination :=
| SysExit (code : Z)
| Uncaught (e : exn)
| Interrupted.

Section KeyGenerator.

(** The file system: whether a path exists, the decoded content of a file
    or the exception raised on opening or reading it, and the file system
    after opening a file for writing and writing a text, with the exception
    raised if any. *)
Variable filesystem : Type.
Variable os_path_exists : filesystem -> pystr -> bool.
Variable read_file : filesystem -> pystr -> pystr + exn.
Variable write_file : filesystem -> pystr -> pystr -> filesystem * option exn.

(** [secrets.token_urlsafe] and [str.lower]. *)
Variable token_urlsafe : Z -> pystr.
Variable str_lower : pystr -> pystr.

Definition generate_api_key (length : Z) : pystr := token_urlsafe length.

Definition update_env_file (fs : filesystem) (env_path api_key : pystr)
  : list output * bool * filesystem :=
  if negb (os_path_exists fs env_path) then
    (print_error (str ".env file not found at: " ++ env_path)
     ++ print_info (str "Please create .env from .env.example first:")
     ++ print_info (str "  cp .env.example .env"),
     false, fs)
  else
    match read_file fs env_path with
    | inr e => (print_error (str "Failed to update .env file: " ++ exn_str e), false, fs)
    | inl content =>
        let lines := readlines content in
        let (new_lines, updated) := replace_api_key_lines api_key lines in
        if negb updated then
          (print_error (str "API_KEY line not found in .env file")
           ++ print_info (str "Please ensure your .env file has an API_KEY= line"),
           false, fs)
        else
          match write_file fs env_path (concat new_lines) with
          | (fs', None) => ([], true, fs')
          | (fs', Some e) =>
              (print_error (str "Failed to update .env file: " ++ exn_str e), false, fs')
          end
    end.

Definition banner : list output :=
  [Print [];
   Print (Colors.BOLD ++ Colors.CYAN ++ repeat (ord "=") 60 ++ Colors.END);
   Print (Colors.BOLD ++ Colors.CYAN ++ str "PiNet API - API Key Generator" ++ Colors.END);
   Print (Colors.BOLD ++ Colors.CYAN ++ repeat (ord "=") 60 ++ Colors.END);
   Print []].

(** [main()], with [script_dir] the directory of the script and [answer]
    what [input] gives. *)
Definition main (fs : filesystem) (script_dir : pystr) (answer : input_result)
  : list output * termination * filesystem :=
  let env_path := path_join script_dir (str ".env") in
  let api_key := generate_api_key 32 in
  let before :=
    banner
    ++ print_info (str "Looking for .env file at: " ++ env_path)
    ++ print_info (str "Generating secure API key...")
    ++ print_success (str "Generated API key: " ++ Colors.BOLD ++ api_key ++ Colors.END)
    ++ [Print []]
    ++ print_warning (str "This will replace the existing API_KEY in your .env file.")
    ++ [Prompt (Colors.BOLD ++ str "Continue? (y/n): " ++ Colors.END)] in
  match answer with
  | InputRaised e => (before, Uncaught e, fs)
  | KeyboardInterrupt => (before, Interrupted, fs)
  | Typed line =>
      let response := str_lower (strip line) in
      if negb (str_eqb response (str "y") || str_eqb response (str "yes")) then
        (before ++ print_info (str "Operation cancelled by user"), SysExit 0, fs)
      else
        let '(printed, ok, fs') := update_env_file fs env_path api_key in
        let during := before ++ [Print []] ++ print_info (str "Updating .env file...")
                      ++ printed in
        if ok then
          (during
           ++ print_success (str "API key successfully updated in .env file!")
           ++ [Print [];
               Print (Colors.BOLD ++ str "Your new API key:" ++ Colors.END);
               Print (str "  " ++ Colors.GREEN ++ api_key ++ Colors.END);
               Print []]
           ++ print_info (str "Next steps:")
           ++ [Print (str "  1. Keep this API key secure");
               Print (str "  2. Restart the PiNet API service if it's running:");
               Print (str "     sudo systemctl restart pinet_api.service");
               Print (str "  3. Update any client applications with the new API key");
               Print []],
           SysExit 0, fs')
        else
          (during
           ++ print_error (str "Failed to update .env file")
           ++ [Print []]
           ++ print_info (str "Manual steps:")
           ++ [Print (str "  1. Open your .env file: nano " ++ env_path);
               Print (str "  2. Set API_KEY=" ++ api_key);
               Print []],
           SysExit 1, fs')
  end.

(** The [if __name__ == '__main__'] block: exit code and what is printed. *)
Definition script (fs : filesystem) (script_dir : pystr) (answer : input_result)
  : list output * Z * filesystem :=
  match main fs script_dir answer with
  | (printed, SysExit code, fs') => (printed, code, fs')
  | (printed, Interrupted, fs') =>
      (printed ++ [Print []] ++ print_warning (str "Operation cancelled by user"), 1%Z, fs')
  | (printed, Uncaught e, fs') =>
      (printed ++ [Print []] ++ print_error (str "Unexpected error: " ++ exn_str e), 1%Z, fs')
  end.

End KeyGenerator.

(** * test_app.py: asking for the test configuration *)

Definition print_header (text : pystr) : list output :=
  [Print ([10] ++ Colors.BOLD ++ Colors.CYAN ++ repeat (ord "=") 70 ++ Colors.END);
   Print (Colors.BOLD ++ Colors.CYAN ++ text ++ Colors.END);
   Print (Colors.BOLD ++ Colors.CYAN ++ repeat (ord "=") 70 ++ Colors.END ++ [10])].

Fixpoint lstrip_char (ch : N) (s : pystr) : pystr :=
  match s with
  | c :: t => if c =? ch then lstrip_char ch t else s
  | [] => []
  end.

(** [s.rstrip(ch)] for a one-character [ch]. *)
Definition rstrip_char (ch : N) (s : pystr) : pystr := rev (lstrip_char ch (rev s)).

(** [input(f"{Colors.BOLD}<text>{Colors.END}")] puts this prompt on the
    terminal. *)
Definition ask (text : string) : output :=
  Prompt (Colors.BOLD ++ str text ++ Colors.END).

(** What [get_user_input] comes to: the four values it returns, or the way
    the script ends inside it. *)
Inductive user_input :=
| Answers (base_url api_key test_ip test_mac : pystr)
| Stopped (how : termination).

(** [get_user_input()], with [answers n] what the n-th call of [input]
    gives. *)
Definition get_user_input (answers : nat -> input_result) : list output * user_input :=
  let shown :=
    print_header (str "PiNet API - Remote Test Script")
    ++ [Print (str "This script will test all API endpoints on your PiNet API server."
               ++ [10])]
    ++ [ask "Enter Pi base URL (e.g., http://192.168.1.50:5000): "] in
  match answers 0%nat with
  | InputRaised e => (shown, Stopped (Uncaught e))
  | KeyboardInterrupt => (shown, Stopped Interrupted)
  | Typed line =>
      let base_url := strip line in
      if negb (truthy (PyStr base_url)) then
        (shown ++ print_error (str "Base URL is required"), Stopped (SysExit 1))
      else
        let base_url := rstrip_char (ord "/") base_url in
        let shown := shown ++ [ask "Enter API_KEY (from Pi's .env file): "] in
        match answers 1%nat with
        | InputRaised e => (shown, Stopped (Uncaught e))
        | KeyboardInterrupt => (shown, Stopped Interrupted)
        | Typed line =>
            let api_key := strip line in
            if negb (truthy (PyStr api_key)) then
              (shown ++ print_error (str "API_KEY is required"), Stopped (SysExit 1))
            else
              let shown :=
                shown ++ [ask "Enter target IP address for ping test (e.g., 8.8.8.8): "] in
              match answers 2%nat with
              | InputRaised e => (shown, Stopped (Uncaught e))
              | KeyboardInterrupt => (shown, Stopped Interrupted)
              | Typed line =>
                  let test_ip := strip line in
                  if negb (truthy (PyStr test_ip)) then
                    (shown ++ print_error (str "Target IP address is required"),
                     Stopped (SysExit 1))
                  else
                    let shown :=
                      shown ++ [ask "Enter target MAC address for WoL test (e.g., AA:BB:CC:DD:EE:FF): "] in
                    match answers 3%nat with
                    | InputRaised e => (shown, Stopped (Uncaught e))
                    | KeyboardInterrupt => (shown, Stopped Interrupted)
                    | Typed line =>
                        let test_mac := strip line in
                        if negb (truthy (PyStr test_mac)) then
                          (shown ++ print_error (str "Target MAC address is required"),
                           Stopped (SysExit 1))
                        else
                          (shown, Answers base_url api_key test_ip test_mac)
                    end
              end
        end
  end.

(** The prompts among what was shown. *)
Definition prompts (shown : list output) : list pystr :=
  flat_map (fun o => match o with Prompt text => [text] | Print _ => [] end) shown.

(** Answers typed one after the other, then end of input. *)
Definition typed_answers (lines : list pystr) : nat -> input_result :=
  fun n => match nth_error lines n with
           | Some line => Typed line
           | None => InputRaised {| exn_kind_of := OtherException;
                                    exn_str := str "EOF when reading a line" |}
           end.

(** ** Lines, as [update_env_file] sees them *)

(** The test of the loop: the stripped line starts with "API_KEY=". *)
Definition is_key_line (line : pystr) : bool :=
  startswith (strip line) (str "API_KEY=").

(** The line written for a key. *)
Definition key_line (api_key : pystr) : pystr := str "API_KEY=" ++ api_key ++ [10].

(** A line that ends with its only "\n". *)
Definition terminated (l : pystr) : Prop :=
  exists body, l = body ++ [10] /\ ~ In 10 body.

(** A non-empty line with no "\n": the last line of a file that does not end
    with one. *)
Definition unterminated (l : pystr) : Prop := l <> [] /\ ~ In 10 l.

(** Lines as a file has them: every line but the last is terminated. *)
Fixpoint file_lines (ls : list pystr) : Prop :=
  match ls with
  | [] => True
  | l :: rest =>
      match rest with
      | [] => terminated l \/ unterminated l
      | _ :: _ => terminated l /\ file_lines rest
      end
  end.

(** A key that fits on one line: no "\n" and no "\r" in it. *)
Definition single_line (api_key : pystr) : bool :=
  forallb (fun c => negb (c =? 10) && negb (c =? 13)) api_key.

(** ** A sample file system: files by path, all readable and writable *)

Definition sample_fs := list (pystr * pystr).

Definition sample_exists (fs : sample_fs) (path : pystr) : bool :=
  existsb (fun item => str_eqb (fst item) path) fs.

Definition sample_read (fs : sample_fs) (path : pystr) : pystr + exn :=
  match find (fun item => str_eqb (fst item) path) fs with
  | Some item => inl (snd item)
  | None => inr {| exn_kind_of := OtherException;
                   exn_str := str "No such file or directory" |}
  end.

Definition sample_write (fs : sample_fs) (path text : pystr) : sample_fs * option exn :=
  ((path, text) :: filter (fun item => negb (str_eqb (fst item) path)) fs, None).

Definition sample_env : pystr :=
  str "# PiNet" ++ [10] ++ str "API_KEY=old" ++ [10] ++ str "API_PORT=5000" ++ [10].

Definition sample_token : Z -> pystr := fun _ => str "kX3_vQ-9".

(** ** More sample inputs *)

(** A subprocess call that raises, with the given text. *)
Definition ping_raises (text : string) : list pystr -> Z -> run_result :=
  fun _ _ => RunRaised {| exn_kind_of := OtherException; exn_str := str text |}.

(** A sender that raises, with the given text. *)
Definition send_fails (text : string) : pyval -> option exn :=
  fun _ => Some {| exn_kind_of := OtherException; exn_str := str text |}.

(** Lower-casing that leaves its argument as it is: right on the answers
    used below, which have no capital letter. *)
Definition sample_lower : pystr -> pystr := fun s => s.

(** * Specification side *)

(** ** What the matcher computes

    [spans subject r s rest]: [r] can match a prefix of [s] leaving [rest].
    It is the declarative reading of [run], used to reason about patterns
    without following the search order. *)
Fixpoint spans (subject : pystr) (r : regex) (s rest : pystr) : Prop :=
  match r with
  | Bol => rest = s /\ length s = length subject
  | Eol => rest = s /\ (s = [] \/ s = [10])
  | Cls p => exists c, s = c :: rest /\ p c = true
  | Seq a b => exists mid, spans subject a s mid /\ spans subject b mid rest
  | Alt a b => spans subject a s rest \/ spans subject b s rest
  | Opt a => spans subject a s rest \/ rest = s
  | Rep n a =>
      Nat.iter n (fun (k : pystr -> Prop) s' => exists mid, spans subject a s' mid /\ k mid)
               (fun s' => rest = s') s
  end.

(** ** Splitting on a separator *)

(** [s.split(sep)] for a one-character [sep]. *)
Fixpoint split_on (sep : N) (s : pystr) : list pystr :=
  match s with
  | [] => [[]]
  | c :: t =>
      if c =? sep then [] :: split_on sep t
      else match split_on sep t with
           | g :: gs => (c :: g) :: gs
           | [] => [[c]]
           end
  end.

(** [sep.join(gs)] *)
Fixpoint join (sep : N) (gs : list pystr) : pystr :=
  match gs with
  | [] => []
  | g :: gs' => match gs' with
                | [] => g
                | _ :: _ => g ++ sep :: join sep gs'
                end
  end.

(** ** Dotted quads, as the specification words them *)

Definition is_digit (c : N) : bool := in_range "0" "9" c.

(** The number a string of decimal digits denotes. *)
Definition decimal_value (d : pystr) : N :=
  fold_left (fun acc c => acc * 10 + (c - ord "0")) d 0.

(** A decimal numeral whose value is in [0,255]. *)
Definition octet_in_range (g : pystr) : bool :=
  match g with
  | [] => false
  | _ :: _ => forallb is_digit g && (decimal_value g <=? 255)
  end.

(** The same, written with at most three digits. *)
Definition short_octet (g : pystr) : bool :=
  (length g <=? 3)%nat && octet_in_range g.

(** Exactly four groups between dots, each one an [octet]. *)
Definition dotted_quad (octet : pystr -> bool) (t : pystr) : bool :=
  match split_on (ord ".") t with
  | [a; b; c; d] => octet a && octet b && octet c && octet d
  | _ => false
  end.

Definition ipv4_any_width (t : pystr) : bool := dotted_quad octet_in_range t.

Definition ipv4_layout (t : pystr) : bool := dotted_quad short_octet t.

(** ** MAC layouts, as the specification words them *)

(** An ASCII capital letter folded to lower case, any other character as
    it is. *)
Definition ascii_lower (c : N) : N :=
  if in_range "A" "Z" c then c + 32 else c.

(** A hexadecimal digit, letters taken without regard to case. *)
Definition is_hex_digit (c : N) : bool :=
  is_digit (ascii_lower c) || in_range "a" "f" (ascii_lower c).

(** A group of two hex digits. *)
Definition hex_pair (g : pystr) : bool :=
  (length g =? 2)%nat && forallb is_hex_digit g.

(** Six groups of two hex digits with [sep] between them. *)
Definition separated_layout (sep : ascii) (t : pystr) : bool :=
  let groups := split_on (ord sep) t in
  (length groups =? 6)%nat && forallb hex_pair groups.

(** Twelve hex digits and nothing else. *)
Definition contiguous_layout (t : pystr) : bool :=
  (length t =? 12)%nat && forallb is_hex_digit t.

Definition mac_layouts (t : pystr) : list bool :=
  [ separated_layout ":" t; separated_layout "-" t; contiguous_layout t ].

Definition count_true (l : list bool) : nat := length (filter id l).

(** * Proofs *)

Ltac break :=
  repeat match goal with
         | H : exists _, _ |- _ => destruct H
         | H : _ /\ _ |- _ => destruct H
         | H : _ \/ _ |- _ => destruct H
         end.

Ltac to_prop :=
  unfold is_digit, in_range, ord in *; cbn in *;
  repeat match goal with
         | H : _ && _ = true |- _ => apply andb_true_iff in H; destruct H
         | H : _ || _ = true |- _ => apply orb_true_iff in H; destruct H
         | H : (_ <=? _) = true |- _ => apply N.leb_le in H
         | H : (_ =? _) = true |- _ => apply N.eqb_eq in H
         | H : (_ <=? _)%nat = true |- _ => apply Nat.leb_le in H
         | H : (_ =? _)%nat = true |- _ => apply Nat.eqb_eq in H
         end.

Ltac of_prop :=
  repeat match goal with
         | |- _ && _ = true => apply andb_true_iff; split
         | |- (_ <=? _) = true => apply N.leb_le
         | |- (_ =? _) = true => apply N.eqb_eq
         | |- (_ <=? _)%nat = true => apply Nat.leb_le
         | |- (_ =? _)%nat = true => apply Nat.eqb_eq
         | |- true = true => reflexivity
         end.

(** One character of class [p] at the head of a string. *)
Ltac one_char := eexists; split; [reflexivity | to_prop; of_prop; lia].

Ltac split_hex H :=
  cbn [forallb] in H;
  repeat (apply andb_true_iff in H; let K := fresh "Hx" in destruct H as [K H]).

(** Build a [spans] derivation for a pattern with no choice in it. *)
Ltac walk :=
  repeat first [ eexists | split | eassumption | apply N.eqb_refl ].

Example ip_ok : validate_ip_address (PyStr (str "192.168.1.1")) = true.
Proof. reflexivity. Qed.
Example ip_999 : validate_ip_address (PyStr (str "999.999.999.999")) = false.
Proof. reflexivity. Qed.
Example ip_five : validate_ip_address (PyStr (str "1.2.3.4.5")) = false.
Proof. reflexivity. Qed.
Example ip_empty : validate_ip_address (PyStr (str "")) = false.
Proof. reflexivity. Qed.
Example mac_colon : validate_mac_address (PyStr (str "AA:BB:CC:DD:EE:FF")) = true.
Proof. reflexivity. Qed.
Example mac_bare : validate_mac_address (PyStr (str "aabbccddeeff")) = true.
Proof. reflexivity. Qed.
Example mac_five : validate_mac_address (PyStr (str "AA:BB:CC:DD:EE")) = false.
Proof. reflexivity. Qed.
Example mac_mixed : validate_mac_address (PyStr (str "AA:BB-CC:DD:EE:FF")) = false.
Proof. reflexivity. Qed.
Example ip_leading_zeros : validate_ip_address (PyStr (str "010.001.00.1")) = true.
Proof. reflexivity. Qed.
Example ip_256 : validate_ip_address (PyStr (str "256.1.1.1")) = false.
Proof. reflexivity. Qed.
Example ip_padded : validate_ip_address (PyStr ([32; 9] ++ str "10.0.0.1" ++ [13; 10])) = true.
Proof. reflexivity. Qed.
Example ip_inner_newline : validate_ip_address (PyStr (str "10.0.0.1" ++ [10] ++ str "x")) = false.
Proof. reflexivity. Qed.
Example mac_padded : validate_mac_address (PyStr ([32] ++ str "aa-bb-cc-dd-ee-ff" ++ [10])) = true.
Proof. reflexivity. Qed.
Example mac_non_hex : validate_mac_address (PyStr (str "GG:BB:CC:DD:EE:FF")) = false.
Proof. reflexivity. Qed.
Example float_zero_falsy : truthy (PyFloat 0%float) = false.
Proof. reflexivity. Qed.

(** ** The matcher computes [spans] *)

Lemma run_spans (subject : pystr) (r : regex) :
  forall s rest, In rest (run subject r s) <-> spans subject r s rest.
Proof.
  induction r as [ | | p | a IHa b IHb | a IHa b IHb | a IHa | n a IHa ];
    intros s rest; simpl.
  - destruct (Nat.eqb_spec (length s) (length subject)) as [E|E]; simpl.
    + split; [intros [<-|[]]; auto | intros [-> _]; auto].
    + split; [intros [] | intros [_ H]; contradiction].
  - destruct s as [|c [|c' s']]; simpl.
    + split; [intros [<-|[]]; auto | intros [-> _]; auto].
    + destruct (N.eqb_spec c 10) as [->|E]; simpl.
      * split; [intros [<-|[]]; auto | intros [-> _]; auto].
      * split; [intros [] | intros [_ [H|H]]; [discriminate|congruence]].
    + split; [intros [] | intros [_ [H|H]]; discriminate].
  - destruct s as [|c t]; simpl.
    + split; [intros [] | intros (c & H & _); discriminate].
    + destruct (p c) eqn:E; simpl.
      * split; [intros [<-|[]]; eauto | intros (c' & H & _); injection H; auto].
      * split; [intros [] | intros (c' & H & Hp); injection H as <- _; congruence].
  - rewrite in_flat_map. split; intros (mid & H1 & H2); exists mid.
    + split; [apply IHa | apply IHb]; assumption.
    + split; [apply IHa | apply IHb]; assumption.
  - rewrite in_app_iff, IHa, IHb. reflexivity.
  - rewrite in_app_iff, IHa. simpl. intuition.
  - revert s. induction n as [|n IHn]; intros s; simpl.
    + intuition.
    + rewrite in_flat_map. split; intros (mid & H1 & H2); exists mid.
      * split; [apply IHa | apply IHn]; assumption.
      * split; [apply IHa | apply IHn]; assumption.
Qed.

Lemma re_match_spans (pattern : regex) (t : pystr) :
  re_match pattern t = true <-> exists rest, spans t pattern t rest.
Proof.
  unfold re_match. destruct (run t pattern t) as [|x l] eqn:E.
  - split; [discriminate|]. intros [rest H].
    apply run_spans in H. rewrite E in H. destruct H.
  - split; [intros _ | reflexivity].
    exists x. apply run_spans. rewrite E. left. reflexivity.
Qed.

(** ** Facts about [strip] *)

Lemma lstrip_head (s : pystr) (c : N) (t : pystr) :
  lstrip s = c :: t -> isspace c = false.
Proof.
  induction s as [|a s IH]; simpl; [discriminate|].
  destruct (isspace a) eqn:E; [exact IH|].
  intros H. injection H as <- _. exact E.
Qed.

Lemma strip_last (s t : pystr) (c : N) :
  strip s = t ++ [c] -> isspace c = false.
Proof.
  unfold strip, rstrip. intros H.
  apply (f_equal (@rev N)) in H.
  rewrite rev_involutive, rev_app_distr in H. simpl in H.
  eapply lstrip_head; eassumption.
Qed.

Lemma strip_no_final_newline (s t : pystr) : strip s <> t ++ [10].
Proof.
  intros H. apply strip_last in H. discriminate H.
Qed.

Lemma lstrip_spaces (ws m : pystr) :
  forallb isspace ws = true -> lstrip (ws ++ m) = lstrip m.
Proof.
  induction ws as [|w ws IH]; simpl; [reflexivity|].
  intros H. apply andb_true_iff in H as [Hw Hws].
  rewrite Hw. auto.
Qed.

Lemma forallb_rev (p : N -> bool) (l : pystr) :
  forallb p l = true -> forallb p (rev l) = true.
Proof.
  rewrite !forallb_forall. intros H x Hx. apply H, in_rev, Hx.
Qed.

(** A string with no whitespace at either end, wrapped in whitespace, strips
    back to itself. *)
Lemma strip_surrounded (ws1 ws2 m body : pystr) (first last : N) :
  forallb isspace ws1 = true -> forallb isspace ws2 = true ->
  m = first :: body -> isspace first = false ->
  (exists front, m = front ++ [last]) -> isspace last = false ->
  strip (ws1 ++ m ++ ws2) = m.
Proof.
  intros H1 H2 Hm Hf [front Hl] Hla.
  unfold strip, rstrip.
  rewrite lstrip_spaces by assumption.
  assert (E : lstrip (m ++ ws2) = m ++ ws2).
  { rewrite Hm. simpl. rewrite Hf. reflexivity. }
  rewrite E, rev_app_distr, lstrip_spaces by (apply forallb_rev; assumption).
  rewrite Hl at 1. rewrite rev_app_distr. simpl. rewrite Hla.
  change (last :: rev front) with (rev [last] ++ rev front).
  rewrite <- rev_app_distr, rev_involutive. symmetry. exact Hl.
Qed.

(** ** Facts about splitting *)

Lemma split_on_nonempty (sep : N) (s : pystr) : split_on sep s <> [].
Proof.
  destruct s as [|c t]; simpl; [discriminate|].
  destruct (c =? sep); [discriminate|].
  destruct (split_on sep t); discriminate.
Qed.

Lemma join_split_on (sep : N) (s : pystr) : join sep (split_on sep s) = s.
Proof.
  induction s as [|c t IH]; simpl; [reflexivity|].
  destruct (N.eqb_spec c sep) as [->|E].
  - pose proof (split_on_nonempty sep t) as Hne.
    destruct (split_on sep t) as [|g gs]; [contradiction|].
    simpl in *. rewrite IH. reflexivity.
  - pose proof (split_on_nonempty sep t) as Hne.
    destruct (split_on sep t) as [|g gs]; [contradiction|].
    simpl in *. destruct gs; simpl in *; rewrite <- IH; reflexivity.
Qed.

Lemma split_on_group (sep : N) (d rest : pystr) :
  ~ In sep d -> split_on sep (d ++ sep :: rest) = d :: split_on sep rest.
Proof.
  induction d as [|c d IH]; simpl; intros H.
  - rewrite N.eqb_refl. reflexivity.
  - destruct (N.eqb_spec c sep) as [->|E]; [exfalso; auto|].
    rewrite IH by auto. reflexivity.
Qed.

Lemma split_on_last (sep : N) (d : pystr) :
  ~ In sep d -> split_on sep d = [d].
Proof.
  induction d as [|c d IH]; simpl; intros H; [reflexivity|].
  destruct (N.eqb_spec c sep) as [->|E]; [exfalso; auto|].
  rewrite IH by auto. reflexivity.
Qed.

(** ** The IPv4 pattern *)

Lemma octet_pattern_spans (subject s rest : pystr) :
  spans subject octet_pattern s rest <->
  exists d, s = d ++ rest /\ short_octet d = true.
Proof.
  unfold octet_pattern, Lit, Range. cbn [spans]. split.
  - intros H. break; subst;
      first [ eexists [_; _; _]; split; [reflexivity|]
            | eexists [_; _]; split; [reflexivity|]
            | eexists [_]; split; [reflexivity|] ];
      unfold short_octet, octet_in_range, decimal_value;
      to_prop; of_prop; lia.
  - intros (d & -> & H).
    destruct d as [|a [|b [|c [|x d]]]]; try discriminate H;
      unfold short_octet, octet_in_range, decimal_value in H; to_prop.
    + right. right. exists (a :: rest). split; [right; reflexivity|].
      exists rest. split; [one_char | right; reflexivity].
    + right. right. exists (a :: b :: rest). split; [right; reflexivity|].
      exists (b :: rest). split; [one_char | left; one_char].
    + destruct (N.leb_spec a 49) as [Ha|Ha].
      * right. right. exists (b :: c :: rest). split; [left; one_char|].
        exists (c :: rest). split; [one_char | left; one_char].
      * destruct (N.leb_spec b 52) as [Hb|Hb].
        -- right. left. exists (b :: c :: rest). split; [one_char|].
           exists (c :: rest). split; one_char.
        -- left. exists (b :: c :: rest). split; [one_char|].
           exists (c :: rest). split; one_char.
Qed.

Lemma octet_has_no_dot (g : pystr) :
  octet_in_range g = true -> ~ In (ord ".") g.
Proof.
  unfold octet_in_range. destruct g as [|c g]; [auto|].
  intros H. apply andb_true_iff in H as [H _].
  rewrite forallb_forall in H. intros Hin. apply H in Hin.
  to_prop. lia.
Qed.

Lemma short_octet_in_range (g : pystr) :
  short_octet g = true -> octet_in_range g = true.
Proof.
  unfold short_octet. intros H. apply andb_true_iff in H. apply H.
Qed.

Lemma dotted_quad_joined (octet : pystr -> bool) (t : pystr) :
  dotted_quad octet t = true ->
  exists a b c d,
    t = a ++ ord "." :: b ++ ord "." :: c ++ ord "." :: d /\
    octet a = true /\ octet b = true /\ octet c = true /\ octet d = true.
Proof.
  unfold dotted_quad. intros H.
  pose proof (join_split_on (ord ".") t) as J.
  destruct (split_on (ord ".") t) as [|a [|b [|c [|d [|e l]]]]];
    try discriminate H.
  repeat (apply andb_true_iff in H; destruct H as [H ?]).
  exists a, b, c, d. simpl in J. auto.
Qed.

Lemma dotted_quad_of_joined (octet : pystr -> bool) (a b c d : pystr) :
  (forall g, octet g = true -> ~ In (ord ".") g) ->
  octet a = true -> octet b = true -> octet c = true -> octet d = true ->
  dotted_quad octet (a ++ ord "." :: b ++ ord "." :: c ++ ord "." :: d) = true.
Proof.
  intros Hdot Ha Hb Hc Hd. unfold dotted_quad.
  rewrite !split_on_group, split_on_last by auto.
  rewrite Ha, Hb, Hc, Hd. reflexivity.
Qed.

Lemma ipv4_pattern_accepts (t : pystr) :
  ipv4_layout t = true -> re_match ipv4_pattern t = true.
Proof.
  intros H. apply dotted_quad_joined in H as (a & b & c & d & E & Ha & Hb & Hc & Hd).
  apply re_match_spans. exists [].
  unfold ipv4_pattern, Lit. cbn [spans Nat.iter nat_rect].
  subst t. eexists. split; [split; reflexivity|].
  exists (d ++ []). split.
  - eexists. split.
    { exists (ord "." :: b ++ ord "." :: c ++ ord "." :: d ++ []). split.
      - apply octet_pattern_spans. exists a. rewrite app_nil_r. auto.
      - eexists. split; [reflexivity | apply N.eqb_refl]. }
    eexists. split.
    { exists (ord "." :: c ++ ord "." :: d ++ []). split.
      - apply octet_pattern_spans. exists b. auto.
      - eexists. split; [reflexivity | apply N.eqb_refl]. }
    eexists. split.
    { exists (ord "." :: d ++ []). split.
      - apply octet_pattern_spans. exists c. auto.
      - eexists. split; [reflexivity | apply N.eqb_refl]. }
    reflexivity.
  - exists []. split.
    + apply octet_pattern_spans. exists d. auto.
    + auto.
Qed.

Lemma ipv4_pattern_only (t : pystr) :
  (forall u, t <> u ++ [10]) ->
  re_match ipv4_pattern t = true -> ipv4_layout t = true.
Proof.
  intros Hnl H. apply re_match_spans in H as [rest H].
  unfold ipv4_pattern, Lit in H. cbn [spans Nat.iter nat_rect] in H.
  break;
    repeat match goal with
           | H : spans _ octet_pattern _ _ |- _ =>
               apply octet_pattern_spans in H; destruct H as (? & ? & ?)
           | H : (_ =? ord ".") = true |- _ => apply N.eqb_eq in H
           end;
    subst.
  - unfold ipv4_layout. rewrite app_nil_r.
    apply dotted_quad_of_joined; auto.
    intros g Hg. apply octet_has_no_dot, short_octet_in_range, Hg.
  - exfalso.
    match type of Hnl with
    | forall u, ?a ++ ?x :: ?b ++ ?y :: ?c ++ ?z :: ?d ++ [10] <> _ =>
        apply (Hnl (a ++ x :: b ++ y :: c ++ z :: d))
    end.
    repeat (rewrite <- app_assoc; simpl). reflexivity.
Qed.

(** ** The MAC patterns *)

Lemma is_hex_digit_class (c : N) : is_hex_digit c = hex_class c.
Proof.
  unfold is_hex_digit, ascii_lower, hex_class, is_digit, in_range, ord.
  cbn [N_of_ascii N_of_digits N.add N.mul Pos.add Pos.mul Pos.succ].
  destruct (N.leb_spec 65 c), (N.leb_spec c 90); cbn [andb];
    repeat match goal with
           | |- context [?a <=? ?b] => destruct (N.leb_spec a b)
           end;
    cbn; try reflexivity; lia.
Qed.

Lemma forallb_hex (l : pystr) : forallb is_hex_digit l = forallb hex_class l.
Proof.
  induction l as [|c l IH]; simpl; [reflexivity|].
  rewrite is_hex_digit_class, IH. reflexivity.
Qed.

Lemma hex_is_not (sep : ascii) (c : N) :
  hex_class (ord sep) = false -> hex_class c = true -> (c =? ord sep) = false.
Proof.
  intros Hs Hc. destruct (N.eqb_spec c (ord sep)) as [->|]; congruence.
Qed.

(** The shape a separated layout forces on the whole string. *)
Lemma separated_layout_shape (sep : ascii) (t : pystr) :
  separated_layout sep t = true ->
  exists a1 a2 b1 b2 c1 c2 d1 d2 e1 e2 f1 f2,
    t = [a1; a2; ord sep; b1; b2; ord sep; c1; c2; ord sep;
         d1; d2; ord sep; e1; e2; ord sep; f1; f2] /\
    forallb hex_class [a1; a2; b1; b2; c1; c2; d1; d2; e1; e2; f1; f2] = true.
Proof.
  unfold separated_layout. intros H.
  pose proof (join_split_on (ord sep) t) as J.
  destruct (split_on (ord sep) t) as [|A [|B [|C [|D [|E [|F [|G l]]]]]]];
    try discriminate H.
  apply andb_true_iff in H as [_ H]. cbn [forallb] in H.
  repeat (apply andb_true_iff in H; destruct H as [? H]).
  repeat match goal with
         | P : hex_pair ?g = true |- _ =>
             destruct g as [|? [|? [|? ?]]]; try discriminate P;
             unfold hex_pair in P; cbn [length Nat.eqb forallb andb] in P;
             rewrite !is_hex_digit_class in P
         end.
  cbn in J. repeat eexists; [symmetry; exact J|].
  cbn [forallb].
  repeat match goal with
         | P : _ && _ = true |- _ => apply andb_true_iff in P; destruct P
         end.
  repeat (apply andb_true_iff; split); auto.
Qed.

Lemma contiguous_layout_shape (t : pystr) :
  contiguous_layout t = true ->
  exists a1 a2 b1 b2 c1 c2 d1 d2 e1 e2 f1 f2,
    t = [a1; a2; b1; b2; c1; c2; d1; d2; e1; e2; f1; f2] /\
    forallb hex_class t = true.
Proof.
  unfold contiguous_layout. intros H. apply andb_true_iff in H as [L H].
  apply Nat.eqb_eq in L.
  do 12 (destruct t as [|? t]; [discriminate L|]).
  destruct t; [|discriminate L].
  repeat eexists.
  rewrite <- forallb_hex. exact H.
Qed.

Section MacPatterns.

Variable sep : ascii.
Hypothesis sep_not_hex : hex_class (ord sep) = false.

Let separated_pattern : regex :=
  Seq Bol (Seq (Rep 5 (Seq (Rep 2 (Cls hex_class)) (Lit sep)))
          (Seq (Rep 2 (Cls hex_class)) Eol)).

Lemma separated_pattern_accepts (t : pystr) :
  separated_layout sep t = true -> re_match separated_pattern t = true.
Proof.
  intros H. apply separated_layout_shape in H.
  destruct H as (a1 & a2 & b1 & b2 & c1 & c2 & d1 & d2 & e1 & e2 & f1 & f2 & -> & H).
  split_hex H.
  apply re_match_spans. exists [].
  unfold separated_pattern, Lit. cbn [spans Nat.iter nat_rect].
  walk. left. reflexivity.
Qed.

Lemma separated_pattern_only (t : pystr) :
  (forall u, t <> u ++ [10]) ->
  re_match separated_pattern t = true -> separated_layout sep t = true.
Proof.
  intros Hnl H. apply re_match_spans in H as [rest H].
  unfold separated_pattern, Lit in H. cbn [spans Nat.iter nat_rect] in H.
  break;
    repeat match goal with
           | P : (_ =? ord sep) = true |- _ => apply N.eqb_eq in P
           end;
    subst.
  - unfold separated_layout. cbn [split_on].
    repeat match goal with
           | P : hex_class ?c = true |- _ =>
               rewrite (hex_is_not sep c sep_not_hex P);
               rewrite <- is_hex_digit_class in P
           end.
    rewrite !N.eqb_refl. cbn.
    repeat match goal with P : is_hex_digit _ = true |- _ => rewrite P; clear P end.
    reflexivity.
  - exfalso.
    match type of Hnl with
    | forall u, ?l <> _ => apply (Hnl (removelast l))
    end.
    reflexivity.
Qed.

End MacPatterns.

Lemma contiguous_pattern_accepts (t : pystr) :
  contiguous_layout t = true ->
  re_match (Seq Bol (Seq (Rep 12 (Cls hex_class)) Eol)) t = true.
Proof.
  intros H. apply contiguous_layout_shape in H.
  destruct H as (a1 & a2 & b1 & b2 & c1 & c2 & d1 & d2 & e1 & e2 & f1 & f2 & -> & H).
  split_hex H.
  apply re_match_spans. exists [].
  cbn [spans Nat.iter nat_rect].
  walk. left. reflexivity.
Qed.

Lemma contiguous_pattern_only (t : pystr) :
  (forall u, t <> u ++ [10]) ->
  re_match (Seq Bol (Seq (Rep 12 (Cls hex_class)) Eol)) t = true ->
  contiguous_layout t = true.
Proof.
  intros Hnl H. apply re_match_spans in H as [rest H].
  cbn [spans Nat.iter nat_rect] in H.
  break; subst.
  - unfold contiguous_layout. cbn.
    repeat match goal with
           | P : hex_class ?c = true |- _ =>
               rewrite <- is_hex_digit_class in P; rewrite P; clear P
           end.
    reflexivity.
  - exfalso.
    match type of Hnl with
    | forall u, ?l <> _ => apply (Hnl (removelast l))
    end.
    reflexivity.
Qed.

(** ** The validators on arbitrary values *)

Lemma validate_ip_address_str (s : pystr) :
  validate_ip_address (PyStr s) = re_match ipv4_pattern (strip s).
Proof. destruct s; reflexivity. Qed.

Lemma validate_mac_address_str (s : pystr) :
  validate_mac_address (PyStr s) =
  existsb (fun pattern => re_match pattern (strip s)) mac_patterns.
Proof. destruct s; reflexivity. Qed.

Lemma validate_ip_address_non_str (v : pyval) :
  is_str v = false -> validate_ip_address v = false.
Proof.
  intros H. unfold validate_ip_address. rewrite H, orb_true_r. reflexivity.
Qed.

Lemma validate_mac_address_non_str (v : pyval) :
  is_str v = false -> validate_mac_address v = false.
Proof.
  intros H. unfold validate_mac_address. rewrite H, orb_true_r. reflexivity.
Qed.

Lemma is_str_PyStr (v : pyval) : is_str v = true -> exists s, v = PyStr s.
Proof. destruct v; try discriminate. eauto. Qed.

Lemma mac_layouts_exclusive (t : pystr) : (count_true (mac_layouts t) <= 1)%nat.
Proof.
  unfold mac_layouts, count_true.
  destruct (separated_layout ":" t) eqn:A, (separated_layout "-" t) eqn:B,
           (contiguous_layout t) eqn:C; cbn; try lia; exfalso;
    repeat match goal with
           | H : separated_layout _ _ = true |- _ =>
               apply separated_layout_shape in H
           | H : contiguous_layout _ = true |- _ =>
               apply contiguous_layout_shape in H
           end;
    break; subst; discriminate.
Qed.

Lemma mac_layouts_one (t : pystr) :
  count_true (mac_layouts t) = 1%nat <->
  separated_layout ":" t || separated_layout "-" t || contiguous_layout t = true.
Proof.
  pose proof (mac_layouts_exclusive t) as E. revert E.
  unfold mac_layouts, count_true.
  destruct (separated_layout ":" t), (separated_layout "-" t),
           (contiguous_layout t); cbn; intros E; split; intros H;
    try reflexivity; try discriminate; lia.
Qed.

Lemma mac_patterns_layouts (s : pystr) :
  existsb (fun pattern => re_match pattern (strip s)) mac_patterns =
  separated_layout ":" (strip s) || separated_layout "-" (strip s)
  || contiguous_layout (strip s).
Proof.
  pose proof (strip_no_final_newline s) as Hnl.
  assert (Hc : hex_class (ord ":") = false) by reflexivity.
  assert (Hh : hex_class (ord "-") = false) by reflexivity.
  pose proof (@separated_pattern_accepts ":" (strip s)) as A1.
  pose proof (@separated_pattern_only ":" Hc (strip s) Hnl) as A2.
  pose proof (@separated_pattern_accepts "-" (strip s)) as B1.
  pose proof (@separated_pattern_only "-" Hh (strip s) Hnl) as B2.
  pose proof (@contiguous_pattern_accepts (strip s)) as C1.
  pose proof (@contiguous_pattern_only (strip s) Hnl) as C2.
  unfold mac_patterns. cbn [existsb]. rewrite orb_false_r, orb_assoc.
  repeat match goal with
         | |- context [re_match ?p (strip s)] =>
             let E := fresh "E" in
             destruct (re_match p (strip s)) eqn:E
         end;
    repeat match goal with
           | |- context [separated_layout ?c (strip s)] =>
               let E := fresh "E" in
               destruct (separated_layout c (strip s)) eqn:E
           | |- context [contiguous_layout (strip s)] =>
               let E := fresh "E" in
               destruct (contiguous_layout (strip s)) eqn:E
           end;
    try reflexivity; exfalso;
    repeat match goal with
           | H : ?x = true -> _, K : ?x = true |- _ => specialize (H K)
           | H : true = true -> _ |- _ => specialize (H eq_refl)
           end;
    congruence.
Qed.

(** What the validator accepts is a dotted quad of numbers in [0,255] in the
    wider reading too: the two readings differ only on numerals of four or
    more digits. *)
Lemma validate_ip_address_in_range (s : pystr) :
  validate_ip_address (PyStr s) = true -> ipv4_any_width (strip s) = true.
Proof.
  rewrite validate_ip_address_str. intros H.
  apply ipv4_pattern_only in H; [|apply strip_no_final_newline].
  apply dotted_quad_joined in H as (a & b & c & d & -> & Ha & Hb & Hc & Hd).
  apply dotted_quad_of_joined; auto using short_octet_in_range, octet_has_no_dot.
Qed.

(** C2 (amended).  For every value [v], the IPv4 validator returns true if
    and only if [v] is a string that, once surrounding whitespace is
    stripped, splits on dots into exactly four groups, each of one to three
    decimal digits denoting a number in [0,255], with nothing else; every
    non-string value and the empty string are rejected. *)
Theorem validate_ip_address_layout (v : pyval) :
  validate_ip_address v = true <->
  exists s, v = PyStr s /\ ipv4_layout (strip s) = true.
Proof.
  destruct (is_str v) eqn:S.
  - apply is_str_PyStr in S as [s ->].
    rewrite validate_ip_address_str. split.
    + intros H. exists s. split; [reflexivity|].
      apply ipv4_pattern_only; [apply strip_no_final_newline | exact H].
    + intros (s' & E & H). injection E as <-.
      apply ipv4_pattern_accepts, H.
  - rewrite validate_ip_address_non_str by exact S. split; [discriminate|].
    intros (s & -> & _). discriminate S.
Qed.

(** C2, counterexample.  "0000.0.0.0" is four dot-separated decimal numerals
    each denoting a number in [0,255], with no other character, yet the
    validator rejects it: the pattern admits at most three digits per octet. *)
Lemma validate_ip_address_four_digit_octet :
  ipv4_any_width (strip (str "0000.0.0.0")) = true /\
  validate_ip_address (PyStr (str "0000.0.0.0")) = false.
Proof. split; reflexivity. Qed.

(** C3.  For every value [v], the MAC validator returns true if and only if
    [v] is a string that, once surrounding whitespace is stripped, has
    exactly one of the three layouts: six two-hex-digit groups separated by
    colons, six separated by hyphens, or twelve hex digits in a row; hex
    digits in either case; every other string and every non-string is
    rejected. *)
Theorem validate_mac_address_layout (v : pyval) :
  validate_mac_address v = true <->
  exists s, v = PyStr s /\ count_true (mac_layouts (strip s)) = 1%nat.
Proof.
  destruct (is_str v) eqn:S.
  - apply is_str_PyStr in S as [s ->].
    rewrite validate_mac_address_str, mac_patterns_layouts, <- mac_layouts_one.
    split.
    + intros H. exists s. auto.
    + intros (s' & E & H). injection E as <-. exact H.
  - rewrite validate_mac_address_non_str by exact S. split; [discriminate|].
    intros (s & -> & _). discriminate S.
Qed.


(** ** The authentication gate and the handlers *)

Lemma str_eqb_eq (a b : pystr) : str_eqb a b = true <-> a = b.
Proof.
  revert b. induction a as [|x a IH]; intros [|y b]; simpl;
    try (split; [discriminate | discriminate]); [tauto|].
  rewrite andb_true_iff, N.eqb_eq, IH. split.
  - intros [-> ->]. reflexivity.
  - intros E. injection E. auto.
Qed.

Lemma str_eqb_neq (a b : pystr) : a <> b -> str_eqb a b = false.
Proof.
  intros H. destruct (str_eqb a b) eqn:E; [|reflexivity].
  apply str_eqb_eq in E. contradiction.
Qed.

Lemma load_api_key_truthy (getenv : pystr -> option pystr) (key : pystr) :
  load_api_key getenv = Some key -> truthy (PyStr key) = true.
Proof.
  unfold load_api_key. destruct (getenv (str "API_KEY")) as [k|]; simpl.
  - destruct k; simpl; [discriminate|]. intros E. injection E as <-. reflexivity.
  - discriminate.
Qed.

Section ServerProperties.

Variable API_KEY : pystr.
Hypothesis API_KEY_set : truthy (PyStr API_KEY) = true.
Variable subprocess_run : list pystr -> Z -> run_result.
Variable send_magic_packet : pyval -> option exn.
Variable format_other : pyval -> pystr.

Lemma gate_passes (A : Type) (f : view A) (args : A) (req : request) :
  header_X_API_Key req = Some API_KEY ->
  require_api_key API_KEY f args req = f args req.
Proof.
  intros H. unfold require_api_key. rewrite H. cbn [opt_truthy opt_differs].
  rewrite API_KEY_set. cbn [negb].
  replace (str_eqb API_KEY API_KEY) with true; [reflexivity|].
  symmetry. apply str_eqb_eq. reflexivity.
Qed.

Lemma gate_requires_key (A : Type) (f : view A) (args : A) (req : request) :
  opt_truthy (header_X_API_Key req) = false ->
  require_api_key API_KEY f args req =
  ([Log WARNING (str "Unauthorized access attempt from " ++ remote_addr req
                 ++ str " - No API key provided")],
   Respond (error_body "API key required", 401%Z)).
Proof.
  intros H. unfold require_api_key. rewrite H. reflexivity.
Qed.

Lemma gate_rejects_other_key (A : Type) (f : view A) (args : A) (req : request)
      (provided_key : pystr) :
  header_X_API_Key req = Some provided_key ->
  provided_key <> [] -> provided_key <> API_KEY ->
  require_api_key API_KEY f args req =
  ([Log WARNING (str "Unauthorized access attempt from " ++ remote_addr req
                 ++ str " - Invalid API key")],
   Respond (error_body "Invalid API key", 401%Z)).
Proof.
  intros H Hne Hk. unfold require_api_key. rewrite H.
  destruct provided_key as [|c k]; [contradiction|].
  cbn [opt_truthy opt_differs truthy negb].
  rewrite str_eqb_neq by assumption. reflexivity.
Qed.

(** Whatever the header, a request without the configured key is answered 401
    with a trace made of one warning. *)
Lemma gate_unauthorized (A : Type) (f : view A) (args : A) (req : request) :
  header_X_API_Key req <> Some API_KEY ->
  exists message body,
    require_api_key API_KEY f args req = ([Log WARNING message], Respond (body, 401%Z)).
Proof.
  intros H. destruct (opt_truthy (header_X_API_Key req)) eqn:T.
  - destruct (header_X_API_Key req) as [k|] eqn:E; [|discriminate T].
    do 2 eexists. apply (gate_rejects_other_key f args req E).
    + intros ->. discriminate T.
    + congruence.
  - do 2 eexists. apply (gate_requires_key f args req T).
Qed.

(** C5 (amended).  For every request to a protected endpoint: if the
    [X-API-Key] header is missing or empty the response is 401 with message
    "API key required"; if it is present, non-empty and differs from the
    configured key the response is 401 with message "Invalid API key"; if it
    equals the configured key the wrapped handler runs. *)
Theorem require_api_key_branches (A : Type) (f : view A) (args : A) (req : request) :
  (header_X_API_Key req = None \/ header_X_API_Key req = Some [] ->
   snd (require_api_key API_KEY f args req) =
   Respond (error_body "API key required", 401%Z)) /\
  (forall provided_key,
      header_X_API_Key req = Some provided_key ->
      provided_key <> [] -> provided_key <> API_KEY ->
      snd (require_api_key API_KEY f args req) =
      Respond (error_body "Invalid API key", 401%Z)) /\
  (header_X_API_Key req = Some API_KEY ->
   require_api_key API_KEY f args req = f args req).
Proof.
  split; [|split].
  - intros H. rewrite gate_requires_key; [reflexivity|].
    destruct H as [-> | ->]; reflexivity.
  - intros k H Hne Hk. rewrite (gate_rejects_other_key f args req H Hne Hk).
    reflexivity.
  - apply gate_passes.
Qed.

(** C8.  A request whose [X-API-Key] header is present but empty takes the
    missing-key branch, 401 "API key required", whatever the configured key
    and without running the wrapped handler; and the key the module loads at
    start-up is never empty. *)
Theorem require_api_key_empty_header (A : Type) (f : view A) (args : A) (req : request) :
  header_X_API_Key req = Some [] ->
  require_api_key API_KEY f args req =
  ([Log WARNING (str "Unauthorized access attempt from " ++ remote_addr req
                 ++ str " - No API key provided")],
   Respond (error_body "API key required", 401%Z)) /\
  snd (require_api_key API_KEY f args req) <>
  Respond (error_body "Invalid API key", 401%Z) /\
  (forall getenv key, load_api_key getenv = Some key -> key <> []).
Proof.
  intros H.
  assert (E := gate_requires_key f args req).
  rewrite H in E. specialize (E eq_refl).
  split; [exact E|]. split.
  - rewrite E. discriminate.
  - intros getenv key L ->. apply load_api_key_truthy in L. discriminate L.
Qed.

(** C1.  For an authenticated ping request whose address passed validation:
    exit code 0 gives 200 with status "online", any other exit code gives
    200 with status "offline", and expiry of the 5-second timeout gives the
    same response as the offline case. *)
Theorem ping_host_outcomes (ip_address : pystr) (req : request) :
  header_X_API_Key req = Some API_KEY ->
  validate_ip_address (PyStr ip_address) = true ->
  let result := subprocess_run (ping_argv ip_address) 5 in
  let resp := snd (GET_ping API_KEY subprocess_run ip_address req) in
  (result = Completed 0 -> resp = (ping_body ip_address "online", 200%Z)) /\
  (forall returncode, returncode <> 0%Z -> result = Completed returncode ->
                      resp = (ping_body ip_address "offline", 200%Z)) /\
  (forall e, result = RunRaised e -> exn_kind_of e = TimeoutExpired ->
             resp = (ping_body ip_address "offline", 200%Z)).
Proof.
  intros Hk Hv result resp. subst result resp.
  unfold GET_ping. rewrite gate_passes by exact Hk.
  unfold ping_host. rewrite Hv. cbn [negb].
  split; [|split].
  - intros ->. reflexivity.
  - intros rc Hrc ->. apply Z.eqb_neq in Hrc. rewrite Hrc. reflexivity.
  - intros e -> ->. reflexivity.
Qed.

(** C7.  A ping request with the correct key and an address that fails
    validation is answered 400 "Invalid IP address format."; no subprocess is
    started for an invalid address; and the key is checked first: without
    the correct key the answer is 401 even though the address is invalid. *)
Theorem ping_host_invalid_address (ip_address : pystr) (req : request) :
  validate_ip_address (PyStr ip_address) = false ->
  (header_X_API_Key req = Some API_KEY ->
   snd (GET_ping API_KEY subprocess_run ip_address req) =
   (error_body "Invalid IP address format.", 400%Z)) /\
  (forall argv timeout,
      ~ In (SubprocessRun argv timeout)
           (fst (GET_ping API_KEY subprocess_run ip_address req))) /\
  (header_X_API_Key req <> Some API_KEY ->
   snd (snd (GET_ping API_KEY subprocess_run ip_address req)) = 401%Z).
Proof.
  intros Hv.
  assert (P : ping_host subprocess_run ip_address req =
              ([Log WARNING (str "Invalid IP address format received: " ++ ip_address)],
               Respond (error_body "Invalid IP address format.", 400%Z))).
  { unfold ping_host. rewrite Hv. reflexivity. }
  assert (D : header_X_API_Key req = Some API_KEY \/ header_X_API_Key req <> Some API_KEY).
  { destruct (header_X_API_Key req) as [k|]; [|right; discriminate].
    destruct (str_eqb k API_KEY) eqn:E.
    - left. apply str_eqb_eq in E. congruence.
    - right. intros K. injection K as ->.
      assert (T : str_eqb API_KEY API_KEY = true) by (apply str_eqb_eq; reflexivity).
      congruence. }
  split; [|split].
  - intros Hk. unfold GET_ping. rewrite gate_passes, P by exact Hk. reflexivity.
  - intros argv timeout. unfold GET_ping. destruct D as [Hk|Hk].
    + rewrite gate_passes, P by exact Hk. cbn. intros [K|[]]. discriminate K.
    + destruct (gate_unauthorized (ping_host subprocess_run) ip_address req Hk)
        as (m & b & ->).
      cbn. intros [K|[]]. discriminate K.
  - intros Hk. unfold GET_ping.
    destruct (gate_unauthorized (ping_host subprocess_run) ip_address req Hk)
      as (m & b & ->).
    reflexivity.
Qed.

Lemma hex_not_space (c : N) : hex_class c = true -> isspace c = false.
Proof.
  intros H. destruct (isspace c) eqn:E; [|reflexivity].
  exfalso. unfold hex_class, isspace in *. to_prop; lia.
Qed.

(** A string in one of the three layouts has no whitespace at its ends, so
    stripping what surrounds it gives it back. *)
Lemma mac_layout_strip (ws1 m ws2 : pystr) :
  forallb isspace ws1 = true -> forallb isspace ws2 = true ->
  count_true (mac_layouts m) = 1%nat ->
  strip (ws1 ++ m ++ ws2) = m.
Proof.
  intros H1 H2 H. apply mac_layouts_one in H.
  apply orb_true_iff in H as [H|H]; [apply orb_true_iff in H as [H|H]|].
  - apply separated_layout_shape in H.
    destruct H as (a1 & a2 & b1 & b2 & c1 & c2 & d1 & d2 & e1 & e2 & f1 & f2 & E & H).
    split_hex H.
    apply (@strip_surrounded ws1 ws2 m (tl m) a1 f2); auto using hex_not_space.
    + rewrite E. reflexivity.
    + exists (removelast m). rewrite E. reflexivity.
  - apply separated_layout_shape in H.
    destruct H as (a1 & a2 & b1 & b2 & c1 & c2 & d1 & d2 & e1 & e2 & f1 & f2 & E & H).
    split_hex H.
    apply (@strip_surrounded ws1 ws2 m (tl m) a1 f2); auto using hex_not_space.
    + rewrite E. reflexivity.
    + exists (removelast m). rewrite E. reflexivity.
  - apply contiguous_layout_shape in H.
    destruct H as (a1 & a2 & b1 & b2 & c1 & c2 & d1 & d2 & e1 & e2 & f1 & f2 & E & H).
    rewrite E in H. split_hex H.
    apply (@strip_surrounded ws1 ws2 m (tl m) a1 f2); auto using hex_not_space.
    + rewrite E. reflexivity.
    + exists (removelast m). rewrite E. reflexivity.
Qed.

Lemma dict_lookup_get (d : list (pystr * pyval)) (key : pystr) (v : pyval) :
  dict_lookup d key = Some v -> dict_get d key = v.
Proof. unfold dict_get. intros ->. reflexivity. Qed.

Lemma validate_mac_address_is_str (mac : pyval) :
  validate_mac_address mac = true -> exists s, mac = PyStr s.
Proof.
  intros H. apply is_str_PyStr. destruct (is_str mac) eqn:S; [reflexivity|].
  rewrite validate_mac_address_non_str in H by exact S. discriminate H.
Qed.

Lemma validate_mac_address_truthy (mac : pyval) :
  validate_mac_address mac = true -> truthy mac = true.
Proof.
  unfold validate_mac_address. destruct (truthy mac); [reflexivity|]. discriminate.
Qed.

(** Any falsy body, [None] or not, is answered as if there were no JSON. *)
Lemma wake_on_lan_falsy_body (req : request) :
  header_X_API_Key req = Some API_KEY ->
  truthy (get_json req) = false ->
  POST_wol API_KEY send_magic_packet format_other req =
  ([Log WARNING (str "WoL request received with no JSON body")],
   (error_body "Request body must be JSON", 400%Z)).
Proof.
  intros Hk Ht. unfold POST_wol. rewrite gate_passes by exact Hk.
  unfold wake_on_lan. rewrite Ht. reflexivity.
Qed.

(** The handler once the key is right, the body a dict and its [mac_address]
    field truthy. *)
Lemma wake_on_lan_field (req : request) (d : list (pystr * pyval)) (mac : pyval) :
  header_X_API_Key req = Some API_KEY ->
  get_json req = PyDict d ->
  dict_get d (str "mac_address") = mac ->
  truthy mac = true ->
  require_api_key API_KEY (wake_on_lan send_magic_packet format_other) tt req =
  if negb (validate_mac_address mac) then
    ([Log WARNING (str "Invalid MAC address format received: " ++ py_str format_other mac)],
     Respond (error_body "Invalid MAC address format.", 400%Z))
  else
    match send_magic_packet mac with
    | None =>
        ([SendMagicPacket mac;
          Log INFO (str "Wake-on-LAN packet sent successfully to " ++ py_str format_other mac)],
         Respond (wol_sent_body (py_str format_other mac), 200%Z))
    | Some e =>
        ([SendMagicPacket mac;
          Log ERROR (str "Error sending WoL packet to " ++ py_str format_other mac
                     ++ str ": " ++ exn_str e)],
         Respond (error_body "Failed to send Wake-on-LAN packet", 500%Z))
    end.
Proof.
  intros Hk Hj Hm Ht. rewrite gate_passes by exact Hk.
  unfold wake_on_lan. rewrite Hj.
  destruct d as [|item d].
  - subst mac. discriminate Ht.
  - cbn [truthy negb]. rewrite Hm, Ht. reflexivity.
Qed.

(** C6.  For an authenticated WoL request whose [mac_address] passes
    validation: if the send succeeds the response is 200 with message
    "Wake-on-LAN packet sent to " followed by the submitted MAC; if the send
    raises, whatever the error, the response is the fixed 500 body "Failed to
    send Wake-on-LAN packet". *)
Theorem wake_on_lan_send_outcomes (req : request) (d : list (pystr * pyval)) (mac : pyval) :
  header_X_API_Key req = Some API_KEY ->
  get_json req = PyDict d ->
  dict_get d (str "mac_address") = mac ->
  validate_mac_address mac = true ->
  exists submitted,
    mac = PyStr submitted /\
    (send_magic_packet mac = None ->
     snd (POST_wol API_KEY send_magic_packet format_other req) =
     (wol_sent_body submitted, 200%Z)) /\
    (forall e, send_magic_packet mac = Some e ->
               snd (POST_wol API_KEY send_magic_packet format_other req) =
               (error_body "Failed to send Wake-on-LAN packet", 500%Z)).
Proof.
  intros Hk Hj Hm Hv.
  assert (F := wake_on_lan_field req Hk Hj Hm (validate_mac_address_truthy mac Hv)).
  rewrite Hv in F. cbn [negb] in F.
  destruct (validate_mac_address_is_str mac Hv) as (s & E).
  exists s. split; [exact E|]. unfold POST_wol. rewrite F. split.
  - intros ->. rewrite E. reflexivity.
  - intros e ->. reflexivity.
Qed.

(** C9.  For an authenticated WoL request whose JSON object has a
    [mac_address] field: a falsy value is answered 400 "Missing mac_address
    field in request body"; a truthy value that is not a string is answered
    400 "Invalid MAC address format.", the validator being false on every
    non-string. *)
Theorem wake_on_lan_falsy_or_non_string (req : request) (d : list (pystr * pyval))
        (mac : pyval) :
  header_X_API_Key req = Some API_KEY ->
  get_json req = PyDict d ->
  dict_lookup d (str "mac_address") = Some mac ->
  (truthy mac = false ->
   snd (POST_wol API_KEY send_magic_packet format_other req) =
   (error_body "Missing mac_address field in request body", 400%Z)) /\
  (truthy mac = true -> is_str mac = false ->
   snd (POST_wol API_KEY send_magic_packet format_other req) =
   (error_body "Invalid MAC address format.", 400%Z)) /\
  (forall v, is_str v = false -> validate_mac_address v = false).
Proof.
  intros Hk Hj Hl. apply dict_lookup_get in Hl as Hm.
  split; [|split].
  - intros Ht. unfold POST_wol. rewrite gate_passes by exact Hk.
    unfold wake_on_lan. rewrite Hj.
    destruct d as [|item d]; [discriminate Hl|].
    cbn [truthy negb]. rewrite Hm, Ht. reflexivity.
  - intros Ht Hs. unfold POST_wol.
    rewrite (wake_on_lan_field req Hk Hj Hm Ht).
    rewrite validate_mac_address_non_str by exact Hs. reflexivity.
  - apply validate_mac_address_non_str.
Qed.

(** C10.  For an authenticated WoL request whose [mac_address] is a valid MAC
    layout wrapped in whitespace: validation succeeds, on the stripped form,
    and the magic-packet sender is called once, with the original string,
    whitespace included. *)
Theorem wake_on_lan_forwards_untrimmed (req : request) (d : list (pystr * pyval))
        (ws1 m ws2 : pystr) :
  header_X_API_Key req = Some API_KEY ->
  get_json req = PyDict d ->
  dict_get d (str "mac_address") = PyStr (ws1 ++ m ++ ws2) ->
  forallb isspace ws1 = true -> forallb isspace ws2 = true ->
  count_true (mac_layouts m) = 1%nat ->
  strip (ws1 ++ m ++ ws2) = m /\
  validate_mac_address (PyStr (ws1 ++ m ++ ws2)) = true /\
  filter (fun ev => match ev with SendMagicPacket _ => true | _ => false end)
         (fst (POST_wol API_KEY send_magic_packet format_other req)) =
  [SendMagicPacket (PyStr (ws1 ++ m ++ ws2))] /\
  (ws1 ++ ws2 <> [] -> ws1 ++ m ++ ws2 <> m).
Proof.
  intros Hk Hj Hm H1 H2 HL.
  assert (S := mac_layout_strip ws1 m ws2 H1 H2 HL).
  assert (V : validate_mac_address (PyStr (ws1 ++ m ++ ws2)) = true).
  { rewrite validate_mac_address_str, mac_patterns_layouts, <- mac_layouts_one.
    rewrite S. exact HL. }
  split; [exact S|]. split; [exact V|]. split.
  - unfold POST_wol.
    rewrite (wake_on_lan_field req Hk Hj Hm (validate_mac_address_truthy _ V)).
    rewrite V. cbn [negb].
    destruct (send_magic_packet (PyStr (ws1 ++ m ++ ws2))); reflexivity.
  - intros Hne E. apply (f_equal (@length N)) in E.
    rewrite !length_app in E.
    destruct ws1, ws2; simpl in *; try lia. contradiction.
Qed.

End ServerProperties.

(** ** The handlers on sample requests *)

Example falsy_json_values :
  map truthy [PyStr []; PyBool false; PyInt 0; PyFloat 0; PyNone; PyList []; PyDict []] =
  [false; false; false; false; false; false; false].
Proof. reflexivity. Qed.

Example truthy_non_strings :
  map truthy [PyInt 123; PyList [PyInt 1]; PyBool true] = [true; true; true] /\
  map validate_mac_address [PyInt 123; PyList [PyInt 1]; PyBool true] = [false; false; false].
Proof. split; reflexivity. Qed.

(** With no JSON body at all the answer is the JSON-required message. *)
Example wake_on_lan_no_body :
  POST_wol sample_key send_succeeds sample_format
           (sample_request (Some sample_key) PyNone) =
  ([Log WARNING (str "WoL request received with no JSON body")],
   (error_body "Request body must be JSON", 400%Z)).
Proof. reflexivity. Qed.

(** An object that has fields, none of them [mac_address], gets the
    missing-field message. *)
Example wake_on_lan_other_field :
  POST_wol sample_key send_succeeds sample_format
           (sample_request (Some sample_key) (PyDict [(str "host", PyStr (str "nas"))])) =
  ([Log WARNING (str "WoL request received without mac_address field")],
   (error_body "Missing mac_address field in request body", 400%Z)).
Proof. reflexivity. Qed.

(** C4, the handler on the body [{}].  The empty object is falsy, so the
    handler takes the no-body branch and answers "Request body must be JSON",
    not the missing-field message. *)
Theorem wake_on_lan_empty_object :
  POST_wol sample_key send_succeeds sample_format
           (sample_request (Some sample_key) (PyDict [])) =
  ([Log WARNING (str "WoL request received with no JSON body")],
   (error_body "Request body must be JSON", 400%Z)).
Proof. reflexivity. Qed.

(** C5, counterexample.  An empty header is present and differs from the
    configured key, yet the answer is not "Invalid API key". *)
Lemma require_api_key_empty_header_not_invalid :
  header_X_API_Key (sample_request (Some []) PyNone) <> None /\
  header_X_API_Key (sample_request (Some []) PyNone) <> Some sample_key /\
  snd (require_api_key sample_key sample_view tt (sample_request (Some []) PyNone)) =
  Respond (error_body "API key required", 401%Z) /\
  snd (require_api_key sample_key sample_view tt (sample_request (Some []) PyNone)) <>
  Respond (error_body "Invalid API key", 401%Z).
Proof. repeat split; try reflexivity; discriminate. Qed.

Lemma ping_host_outcomes_witness :
  truthy (PyStr sample_key) = true /\
  header_X_API_Key (sample_request (Some sample_key) PyNone) = Some sample_key /\
  validate_ip_address (PyStr (str "8.8.8.8")) = true /\
  snd (GET_ping sample_key (ping_exits 0) (str "8.8.8.8")
                (sample_request (Some sample_key) PyNone)) =
  (ping_body (str "8.8.8.8") "online", 200%Z).
Proof.
  split; [reflexivity|]. split; [reflexivity|]. split; [reflexivity|].
  apply (@ping_host_outcomes sample_key eq_refl (ping_exits 0) (str "8.8.8.8")
           (sample_request (Some sample_key) PyNone) eq_refl eq_refl).
  reflexivity.
Defined.

Lemma require_api_key_branches_witness :
  truthy (PyStr sample_key) = true /\
  require_api_key sample_key sample_view tt (sample_request (Some sample_key) PyNone) =
  sample_view tt (sample_request (Some sample_key) PyNone).
Proof.
  split; [reflexivity|].
  apply (@require_api_key_branches sample_key eq_refl unit sample_view tt
           (sample_request (Some sample_key) PyNone)).
  reflexivity.
Defined.

Lemma require_api_key_empty_header_witness :
  header_X_API_Key (sample_request (Some []) PyNone) = Some [] /\
  snd (require_api_key sample_key sample_view tt (sample_request (Some []) PyNone)) =
  Respond (error_body "API key required", 401%Z).
Proof.
  split; [reflexivity|].
  rewrite (proj1 (@require_api_key_empty_header sample_key unit sample_view tt
                    (sample_request (Some []) PyNone) eq_refl)).
  reflexivity.
Defined.

Lemma ping_host_invalid_address_witness :
  truthy (PyStr sample_key) = true /\
  validate_ip_address (PyStr (str "not-an-ip")) = false /\
  snd (GET_ping sample_key (ping_exits 0) (str "not-an-ip")
                (sample_request (Some sample_key) PyNone)) =
  (error_body "Invalid IP address format.", 400%Z).
Proof.
  split; [reflexivity|]. split; [reflexivity|].
  apply (@ping_host_invalid_address sample_key eq_refl (ping_exits 0) (str "not-an-ip")
           (sample_request (Some sample_key) PyNone) eq_refl).
  reflexivity.
Defined.

Lemma wake_on_lan_send_outcomes_witness :
  truthy (PyStr sample_key) = true /\
  validate_mac_address (PyStr (str "AA:BB:CC:DD:EE:FF")) = true /\
  exists submitted,
    PyStr (str "AA:BB:CC:DD:EE:FF") = PyStr submitted /\
    snd (POST_wol sample_key send_succeeds sample_format
           (sample_request (Some sample_key)
              (PyDict [(str "mac_address", PyStr (str "AA:BB:CC:DD:EE:FF"))]))) =
    (wol_sent_body submitted, 200%Z).
Proof.
  split; [reflexivity|]. split; [reflexivity|].
  destruct (@wake_on_lan_send_outcomes sample_key eq_refl send_succeeds sample_format
              (sample_request (Some sample_key)
                 (PyDict [(str "mac_address", PyStr (str "AA:BB:CC:DD:EE:FF"))]))
              [(str "mac_address", PyStr (str "AA:BB:CC:DD:EE:FF"))]
              (PyStr (str "AA:BB:CC:DD:EE:FF"))
              eq_refl eq_refl eq_refl eq_refl) as (submitted & E & Hok & _).
  exists submitted. split; [exact E | exact (Hok eq_refl)].
Defined.

Lemma wake_on_lan_falsy_or_non_string_witness :
  truthy (PyStr sample_key) = true /\
  dict_lookup [(str "mac_address", PyInt 123)] (str "mac_address") = Some (PyInt 123) /\
  snd (POST_wol sample_key send_succeeds sample_format
         (sample_request (Some sample_key) (PyDict [(str "mac_address", PyInt 123)]))) =
  (error_body "Invalid MAC address format.", 400%Z).
Proof.
  split; [reflexivity|]. split; [reflexivity|].
  apply (@wake_on_lan_falsy_or_non_string sample_key eq_refl send_succeeds sample_format
           (sample_request (Some sample_key) (PyDict [(str "mac_address", PyInt 123)]))
           [(str "mac_address", PyInt 123)] (PyInt 123) eq_refl eq_refl eq_refl);
    reflexivity.
Defined.

Lemma wake_on_lan_forwards_untrimmed_witness :
  truthy (PyStr sample_key) = true /\
  forallb isspace (str " ") = true /\
  count_true (mac_layouts (str "AA:BB:CC:DD:EE:FF")) = 1%nat /\
  filter (fun ev => match ev with SendMagicPacket _ => true | _ => false end)
         (fst (POST_wol sample_key send_succeeds sample_format
                 (sample_request (Some sample_key)
                    (PyDict [(str "mac_address", PyStr (str " AA:BB:CC:DD:EE:FF "))])))) =
  [SendMagicPacket (PyStr (str " AA:BB:CC:DD:EE:FF "))].
Proof.
  split; [reflexivity|]. split; [reflexivity|]. split; [reflexivity|].
  apply (@wake_on_lan_forwards_untrimmed sample_key eq_refl send_succeeds sample_format
           (sample_request (Some sample_key)
              (PyDict [(str "mac_address", PyStr (str " AA:BB:CC:DD:EE:FF "))]))
           [(str "mac_address", PyStr (str " AA:BB:CC:DD:EE:FF "))]
           (str " ") (str "AA:BB:CC:DD:EE:FF") (str " ")
           eq_refl eq_refl eq_refl eq_refl eq_refl eq_refl).
Defined.

(** * Further properties of the server *)

(** ** What a validated string is made of *)

Lemma lstrip_prefix (s : pystr) :
  exists ws, s = ws ++ lstrip s /\ forallb isspace ws = true.
Proof.
  induction s as [|c s (ws & E & H)]; simpl.
  - exists []. auto.
  - destruct (isspace c) eqn:Hc.
    + exists (c :: ws). simpl. rewrite Hc, H, <- E. auto.
    + exists []. auto.
Qed.


Lemma forallb_app_intro (p : N -> bool) (a b : pystr) :
  forallb p a = true -> forallb p b = true -> forallb p (a ++ b) = true.
Proof. intros Ha Hb. rewrite forallb_app, Ha, Hb. reflexivity. Qed.

Lemma forallb_weaken (p q : N -> bool) (l : pystr) :
  (forall c, p c = true -> q c = true) ->
  forallb p l = true -> forallb q l = true.
Proof.
  intros W. rewrite !forallb_forall. auto.
Qed.

Lemma short_octet_digits (g : pystr) :
  short_octet g = true ->
  forallb is_digit g = true /\ (1 <= length g <= 3)%nat.
Proof.
  unfold short_octet, octet_in_range. intros H.
  apply andb_true_iff in H as [L H]. apply Nat.leb_le in L.
  destruct g as [|c g]; [discriminate H|].
  apply andb_true_iff in H as [H _]. simpl in *. split; [exact H | lia].
Qed.

Lemma digit_not_space (c : N) : is_digit c = true -> isspace c = false.
Proof.
  intros H. destruct (isspace c) eqn:E; [|reflexivity].
  exfalso. unfold isspace in *. to_prop; lia.
Qed.

(** A dotted quad starts and ends with a digit, holds digits and dots only
    and is 7 to 15 characters long. *)
Lemma ipv4_layout_shape (t : pystr) :
  ipv4_layout t = true ->
  forallb (fun c => is_digit c || (c =? ord ".")) t = true /\
  (7 <= length t <= 15)%nat /\
  (exists first body, t = first :: body /\ is_digit first = true) /\
  (exists front last, t = front ++ [last] /\ is_digit last = true).
Proof.
  intros H. apply dotted_quad_joined in H as (a & b & c & d & -> & Ha & Hb & Hc & Hd).
  apply short_octet_digits in Ha as [Da La], Hb as [Db Lb], Hc as [Dc Lc], Hd as [Dd Ld].
  assert (W : forall g, forallb is_digit g = true ->
                        forallb (fun c => is_digit c || (c =? ord ".")) g = true).
  { intros g. apply forallb_weaken. intros x ->. reflexivity. }
  split; [|split; [|split]].
  - repeat (apply forallb_app_intro; [auto|]; simpl).
    auto.
  - repeat (rewrite length_app; simpl). lia.
  - destruct a as [|a0 a]; [simpl in La; lia|].
    exists a0. eexists. split; [reflexivity|].
    simpl in Da. apply andb_true_iff in Da. apply Da.
  - destruct (exists_last (l:=d)) as (front & last & E).
    { intros ->. simpl in Ld. lia. }
    exists (a ++ ord "." :: b ++ ord "." :: c ++ ord "." :: front), last.
    split.
    + rewrite E. repeat (rewrite <- app_assoc; simpl). reflexivity.
    + rewrite E, forallb_app in Dd. apply andb_true_iff in Dd as [_ Dd].
      simpl in Dd. apply andb_true_iff in Dd. apply Dd.
Qed.



(** ** The endpoints as a whole *)

Section EndpointProperties.

Variable API_KEY : pystr.
Hypothesis API_KEY_set : truthy (PyStr API_KEY) = true.
Variable subprocess_run : list pystr -> Z -> run_result.
Variable send_magic_packet : pyval -> option exn.
Variable format_other : pyval -> pystr.

Lemma header_cases (req : request) :
  header_X_API_Key req = Some API_KEY \/ header_X_API_Key req <> Some API_KEY.
Proof.
  destruct (header_X_API_Key req) as [k|]; [|right; discriminate].
  destruct (str_eqb k API_KEY) eqn:E.
  - left. apply str_eqb_eq in E. congruence.
  - right. intros K. injection K as ->.
    rewrite (proj2 (str_eqb_eq API_KEY API_KEY) eq_refl) in E. discriminate E.
Qed.

(** The ping view always answers; it never lets an exception through. *)
Lemma ping_host_responds (ip_address : pystr) (req : request) :
  exists trace body status,
    ping_host subprocess_run ip_address req = (trace, Respond (body, status)) /\
    (status = 200 \/ status = 400 \/ status = 500)%Z.
Proof.
  unfold ping_host.
  destruct (validate_ip_address (PyStr ip_address)); cbn [negb].
  - destruct (subprocess_run (ping_argv ip_address) 5) as [rc|e].
    + destruct (rc =? 0)%Z; do 3 eexists; split; [reflexivity|auto| reflexivity|auto].
    + destruct (exn_kind_of e); do 3 eexists; split; [reflexivity|auto| reflexivity|auto].
  - do 3 eexists. split; [reflexivity|auto].
Qed.

(** X3.  GET /ping answers 500 exactly when the key is right, the address
    valid and the subprocess call raised something other than a timeout; the
    answer then is "Internal error executing ping" and the text of the
    exception goes to the error log only. *)
Theorem ping_internal_error (ip_address : pystr) (req : request) :
  (snd (snd (GET_ping API_KEY subprocess_run ip_address req)) = 500%Z <->
   header_X_API_Key req = Some API_KEY /\
   validate_ip_address (PyStr ip_address) = true /\
   exists e, subprocess_run (ping_argv ip_address) 5 = RunRaised e /\
             exn_kind_of e = OtherException) /\
  (forall e,
      header_X_API_Key req = Some API_KEY ->
      validate_ip_address (PyStr ip_address) = true ->
      subprocess_run (ping_argv ip_address) 5 = RunRaised e ->
      exn_kind_of e = OtherException ->
      GET_ping API_KEY subprocess_run ip_address req =
      ([SubprocessRun (ping_argv ip_address) 5;
        Log ERROR (str "Error pinging " ++ ip_address ++ str ": " ++ exn_str e)],
       (error_body "Internal error executing ping", 500%Z))).
Proof.
  split.
  - unfold GET_ping. destruct (header_cases req) as [Hk|Hk].
    + rewrite (gate_passes API_KEY_set) by exact Hk. unfold ping_host.
      destruct (validate_ip_address (PyStr ip_address)) eqn:Hv; cbn [negb].
      * destruct (subprocess_run (ping_argv ip_address) 5) as [rc|e] eqn:Hr.
        -- destruct (rc =? 0)%Z; cbn; (split; [discriminate|]);
             intros (_ & _ & e & K & _); discriminate K.
        -- destruct (exn_kind_of e) eqn:K; cbn; split.
           ++ discriminate.
           ++ intros (_ & _ & e' & E & K'). injection E as <-. congruence.
           ++ intros _. eauto.
           ++ reflexivity.
      * cbn. split; [discriminate|]. intros (_ & K & _). discriminate K.
    + destruct (gate_unauthorized (ping_host subprocess_run) ip_address req Hk)
        as (m & b & ->).
      cbn. split; [discriminate|]. intros (K & _). contradiction.
  - intros e Hk Hv Hr He. unfold GET_ping.
    rewrite (gate_passes API_KEY_set) by exact Hk.
    unfold ping_host. rewrite Hv, Hr, He. reflexivity.
Qed.

(** X4.  GET /ping starts the ping subprocess once, with the argument list
    ping -c 1 -W 2 <address> and a timeout of 5 seconds, when the key is
    right and the address valid, and starts nothing otherwise. *)
Theorem ping_subprocess_calls (ip_address : pystr) (req : request) :
  (header_X_API_Key req = Some API_KEY ->
   validate_ip_address (PyStr ip_address) = true ->
   subprocess_calls (fst (GET_ping API_KEY subprocess_run ip_address req)) =
   [([str "ping"; str "-c"; str "1"; str "-W"; str "2"; ip_address], 5%Z)]) /\
  (header_X_API_Key req <> Some API_KEY \/
   validate_ip_address (PyStr ip_address) = false ->
   subprocess_calls (fst (GET_ping API_KEY subprocess_run ip_address req)) = []).
Proof.
  split.
  - intros Hk Hv. unfold GET_ping. rewrite (gate_passes API_KEY_set) by exact Hk.
    unfold ping_host. rewrite Hv. cbn [negb].
    destruct (subprocess_run (ping_argv ip_address) 5) as [rc|e];
      [destruct (rc =? 0)%Z | destruct (exn_kind_of e)]; reflexivity.
  - intros H. unfold GET_ping. destruct (header_cases req) as [Hk|Hk].
    + destruct H as [H|Hv]; [contradiction|].
      rewrite (gate_passes API_KEY_set) by exact Hk.
      unfold ping_host. rewrite Hv. reflexivity.
    + destruct (gate_unauthorized (ping_host subprocess_run) ip_address req Hk)
        as (m & b & ->).
      reflexivity.
Qed.

(** A dotted quad wrapped in whitespace strips back to itself. *)
Lemma ipv4_layout_strip (ws1 q ws2 : pystr) :
  forallb isspace ws1 = true -> forallb isspace ws2 = true ->
  ipv4_layout q = true ->
  strip (ws1 ++ q ++ ws2) = q.
Proof.
  intros H1 H2 H.
  apply ipv4_layout_shape in H
    as (_ & _ & (first & body & E & Hf) & (front & last & El & Hl)).
  apply (@strip_surrounded ws1 ws2 q body first last);
    eauto using digit_not_space.
Qed.

(** X5.  The ping handler validates the stripped address but uses the
    original one: for a dotted quad wrapped in whitespace validation
    succeeds and the subprocess receives the address with its whitespace. *)
Theorem ping_forwards_untrimmed (req : request) (ws1 q ws2 : pystr) :
  header_X_API_Key req = Some API_KEY ->
  forallb isspace ws1 = true -> forallb isspace ws2 = true ->
  ipv4_layout q = true ->
  validate_ip_address (PyStr (ws1 ++ q ++ ws2)) = true /\
  subprocess_calls (fst (GET_ping API_KEY subprocess_run (ws1 ++ q ++ ws2) req)) =
  [(ping_argv (ws1 ++ q ++ ws2), 5%Z)] /\
  (ws1 ++ ws2 <> [] -> ws1 ++ q ++ ws2 <> q).
Proof.
  intros Hk H1 H2 H.
  assert (V : validate_ip_address (PyStr (ws1 ++ q ++ ws2)) = true).
  { rewrite validate_ip_address_str, (ipv4_layout_strip ws1 q ws2 H1 H2 H).
    apply ipv4_pattern_accepts, H. }
  split; [exact V|]. split.
  - unfold GET_ping. rewrite (gate_passes API_KEY_set) by exact Hk.
    unfold ping_host. rewrite V. cbn [negb].
    destruct (subprocess_run (ping_argv (ws1 ++ q ++ ws2)) 5) as [rc|e];
      [destruct (rc =? 0)%Z | destruct (exn_kind_of e)]; reflexivity.
  - intros Hne E. apply (f_equal (@length N)) in E.
    rewrite !length_app in E.
    destruct ws1, ws2; simpl in *; try lia. contradiction.
Qed.

(** X6.  The answer of GET /ping does not depend on the text of an exception
    raised by the subprocess call: two runs whose subprocess results differ
    only in that text get the same response. *)
Theorem ping_hides_exception_text (other_run : list pystr -> Z -> run_result)
        (ip_address : pystr) (req : request) :
  same_run_outcome (subprocess_run (ping_argv ip_address) 5)
                   (other_run (ping_argv ip_address) 5%Z) ->
  snd (GET_ping API_KEY subprocess_run ip_address req) =
  snd (GET_ping API_KEY other_run ip_address req).
Proof.
  intros H. unfold GET_ping, require_api_key.
  destruct (opt_truthy (header_X_API_Key req)); cbn [negb]; [|reflexivity].
  destruct (opt_differs (header_X_API_Key req) API_KEY); [reflexivity|].
  unfold ping_host.
  destruct (validate_ip_address (PyStr ip_address)); cbn [negb]; [|reflexivity].
  destruct (subprocess_run (ping_argv ip_address) 5) as [rc|e],
           (other_run (ping_argv ip_address) 5%Z) as [rc'|e'];
    simpl in H; try contradiction.
  - subst rc'. destruct (rc =? 0)%Z; reflexivity.
  - rewrite <- H. destruct (exn_kind_of e); reflexivity.
Qed.

(** The MAC the handler accepted has exactly one of the three layouts. *)
Lemma validate_mac_address_one_layout (mac : pyval) :
  validate_mac_address mac = true ->
  exists s, mac = PyStr s /\ count_true (mac_layouts (strip s)) = 1%nat.
Proof.
  intros H. destruct (validate_mac_address_is_str mac H) as [s ->].
  exists s. split; [reflexivity|].
  rewrite validate_mac_address_str, mac_patterns_layouts in H.
  apply mac_layouts_one, H.
Qed.

(** X7.  The answer of POST /wol does not depend on the text of an exception
    raised by the sender: two senders that fail on the same values get the
    same response. *)
Theorem wake_on_lan_hides_exception_text (other_send : pyval -> option exn)
        (req : request) :
  (forall mac, same_send_outcome (send_magic_packet mac) (other_send mac)) ->
  snd (POST_wol API_KEY send_magic_packet format_other req) =
  snd (POST_wol API_KEY other_send format_other req).
Proof.
  intros H. unfold POST_wol, require_api_key.
  destruct (opt_truthy (header_X_API_Key req)); cbn [negb]; [|reflexivity].
  destruct (opt_differs (header_X_API_Key req) API_KEY); [reflexivity|].
  unfold wake_on_lan.
  destruct (truthy (get_json req)); cbn [negb]; [|reflexivity].
  destruct (get_json req) as [ | b | n | x | s | l | d ]; try reflexivity.
  destruct (truthy (dict_get d (str "mac_address"))); cbn [negb]; [|reflexivity].
  destruct (validate_mac_address (dict_get d (str "mac_address"))); cbn [negb];
    [|reflexivity].
  specialize (H (dict_get d (str "mac_address"))).
  destruct (send_magic_packet (dict_get d (str "mac_address"))),
           (other_send (dict_get d (str "mac_address")));
    simpl in H; try contradiction; reflexivity.
Qed.

(** X8.  An authenticated POST /wol whose JSON body is truthy but not an
    object (a non-empty list or string, a non-zero number, [true]) makes
    [data.get] raise; the application-wide handler answers 500 "An unexpected
    error occurred", logs the error, and no packet is sent. *)
Theorem wake_on_lan_non_object_body (req : request) :
  header_X_API_Key req = Some API_KEY ->
  truthy (get_json req) = true ->
  (forall d, get_json req <> PyDict d) ->
  POST_wol API_KEY send_magic_packet format_other req =
  ([Log ERROR (str "Unhandled exception: "
               ++ (str "'" ++ type_name (get_json req)
                   ++ str "' object has no attribute 'get'"))],
   (error_body "An unexpected error occurred", 500%Z)) /\
  sent_packets (fst (POST_wol API_KEY send_magic_packet format_other req)) = [].
Proof.
  intros Hk Ht Hd.
  assert (E : POST_wol API_KEY send_magic_packet format_other req =
              ([Log ERROR (str "Unhandled exception: "
                           ++ (str "'" ++ type_name (get_json req)
                               ++ str "' object has no attribute 'get'"))],
               (error_body "An unexpected error occurred", 500%Z))).
  { unfold POST_wol. rewrite (gate_passes API_KEY_set) by exact Hk.
    unfold wake_on_lan. rewrite Ht. cbn [negb].
    destruct (get_json req) as [ | b | n | x | s | l | d ]; try reflexivity.
    exfalso. apply (Hd d). reflexivity. }
  split; [exact E|]. rewrite E. reflexivity.
Qed.

(** X9.  Whatever POST /wol hands to the packet sender, it hands over once,
    for a request with the right key, and the value is the body's
    [mac_address], a string with exactly one of the three MAC layouts once
    stripped. *)
Theorem wake_on_lan_sent_packets (req : request) (mac : pyval) :
  In mac (sent_packets (fst (POST_wol API_KEY send_magic_packet format_other req))) ->
  sent_packets (fst (POST_wol API_KEY send_magic_packet format_other req)) = [mac] /\
  header_X_API_Key req = Some API_KEY /\
  (exists d, get_json req = PyDict d /\ dict_get d (str "mac_address") = mac) /\
  exists s, mac = PyStr s /\ count_true (mac_layouts (strip s)) = 1%nat.
Proof.
  unfold POST_wol. destruct (header_cases req) as [Hk|Hk].
  - rewrite (gate_passes API_KEY_set) by exact Hk. unfold wake_on_lan.
    destruct (truthy (get_json req)); cbn [negb]; [|intros []].
    destruct (get_json req) as [ | b | n | x | s | l | d ]; try (intros []).
    destruct (truthy (dict_get d (str "mac_address"))); cbn [negb]; [|intros []].
    destruct (validate_mac_address (dict_get d (str "mac_address"))) eqn:V;
      cbn [negb]; [|intros []].
    destruct (send_magic_packet (dict_get d (str "mac_address")));
      cbn; (intros [<-|[]]; repeat split; eauto using validate_mac_address_one_layout).
  - destruct (gate_unauthorized (wake_on_lan send_magic_packet format_other) tt req Hk)
      as (m & b & ->).
    intros [].
Qed.


(** X11.  Wrapping a view twice in the gate is the same as wrapping it once,
    and a request without the configured key gets the same result whatever
    view is wrapped: the view has no part in it. *)
Theorem require_api_key_idempotent (A : Type) (f g : view A) (args : A) (req : request) :
  require_api_key API_KEY (require_api_key API_KEY f) args req =
  require_api_key API_KEY f args req /\
  (header_X_API_Key req <> Some API_KEY ->
   require_api_key API_KEY f args req = require_api_key API_KEY g args req).
Proof.
  split.
  - unfold require_api_key.
    destruct (opt_truthy (header_X_API_Key req)); cbn [negb]; [|reflexivity].
    destruct (opt_differs (header_X_API_Key req) API_KEY); reflexivity.
  - intros Hk.
    destruct (gate_unauthorized f args req Hk) as (m & b & E).
    unfold require_api_key in *.
    destruct (opt_truthy (header_X_API_Key req)) eqn:T; cbn [negb] in *; [|reflexivity].
    destruct (opt_differs (header_X_API_Key req) API_KEY) eqn:D; [reflexivity|].
    exfalso. apply Hk.
    destruct (header_X_API_Key req) as [k|]; [|discriminate T].
    simpl in D. apply negb_false_iff, str_eqb_eq in D. congruence.
Qed.

End EndpointProperties.

(** * Properties of the key generator *)

(** ** The loop over the lines *)

Lemma replace_api_key_lines_from (api_key : pystr) (lines acc : list pystr) (u : bool) :
  fold_left
    (fun (state : list pystr * bool) line =>
       let (new_lines, updated) := state in
       if is_key_line line then (new_lines ++ [key_line api_key], true)
       else (new_lines ++ [line], updated))
    lines (acc, u) =
  (acc ++ map (fun l => if is_key_line l then key_line api_key else l) lines,
   u || existsb is_key_line lines).
Proof.
  revert acc u. induction lines as [|l lines IH]; intros acc u; cbn [fold_left map existsb].
  - rewrite app_nil_r, orb_false_r. reflexivity.
  - destruct (is_key_line l); rewrite IH, <- app_assoc; cbn [app orb].
    + rewrite orb_true_r. reflexivity.
    + reflexivity.
Qed.

Lemma replace_api_key_lines_eq (api_key : pystr) (lines : list pystr) :
  replace_api_key_lines api_key lines =
  (map (fun l => if is_key_line l then key_line api_key else l) lines,
   existsb is_key_line lines).
Proof.
  exact (replace_api_key_lines_from api_key lines [] false).
Qed.

(** X12.  The loop of [update_env_file] keeps the number and order of the
    lines: every line whose stripped form starts with "API_KEY=" becomes
    "API_KEY=<key>" with a newline, every other line stays as it is, and the
    flag says whether some line was replaced. *)
Theorem replace_api_key_lines_map (api_key : pystr) (lines : list pystr) :
  replace_api_key_lines api_key lines =
  (map (fun l => if is_key_line l then key_line api_key else l) lines,
   existsb is_key_line lines) /\
  length (fst (replace_api_key_lines api_key lines)) = length lines.
Proof.
  rewrite replace_api_key_lines_eq. simpl.
  split; [reflexivity|]. apply length_map.
Qed.

(** ** Lines and texts *)

Lemma split_lines_terminated (body rest : pystr) :
  ~ In 10 body ->
  split_lines (body ++ 10 :: rest) = (body ++ [10]) :: split_lines rest.
Proof.
  induction body as [|c body IH]; simpl; intros H.
  - reflexivity.
  - destruct (N.eqb_spec c 10) as [->|E]; [exfalso; auto|].
    rewrite IH by auto. reflexivity.
Qed.

Lemma split_lines_unterminated (l : pystr) :
  l <> [] -> ~ In 10 l -> split_lines l = [l].
Proof.
  induction l as [|c l IH]; intros Hne H; [contradiction|]. simpl.
  destruct (N.eqb_spec c 10) as [->|E]; [exfalso; apply H; left; reflexivity|].
  destruct l as [|d l]; [reflexivity|].
  rewrite IH; [reflexivity|discriminate|]. intros K. apply H. right. exact K.
Qed.

Lemma concat_split_lines (s : pystr) : concat (split_lines s) = s.
Proof.
  induction s as [|c s IH]; simpl; [reflexivity|].
  destruct (c =? 10); simpl; [rewrite IH; reflexivity|].
  destruct (split_lines s) as [|l ls]; simpl in *; rewrite <- IH; reflexivity.
Qed.

Lemma split_lines_concat (ls : list pystr) :
  file_lines ls -> split_lines (concat ls) = ls.
Proof.
  induction ls as [|l rest IH]; [reflexivity|].
  intros F. change (concat (l :: rest)) with (l ++ concat rest).
  destruct rest as [|l' rest'].
  - cbn [concat]. rewrite app_nil_r.
    destruct F as [(body & -> & H)|[Hne H]].
    + rewrite split_lines_terminated by exact H. reflexivity.
    + apply split_lines_unterminated; assumption.
  - change (terminated l /\ file_lines (l' :: rest')) in F.
    destruct F as [(body & -> & H) F].
    rewrite <- app_assoc. cbn [app].
    rewrite split_lines_terminated by exact H.
    rewrite IH by exact F. reflexivity.
Qed.

Lemma split_lines_file_lines (s : pystr) : file_lines (split_lines s).
Proof.
  induction s as [|c s IH]; simpl; [exact I|].
  destruct (N.eqb_spec c 10) as [->|E].
  - assert (T : terminated [10]) by (exists []; split; [reflexivity | intros []]).
    simpl. destruct (split_lines s); [left; exact T | split; [exact T | exact IH]].
  - destruct (split_lines s) as [|l ls]; simpl.
    + right. split; [discriminate|]. intros [K|[]]. congruence.
    + simpl in IH. destruct ls as [|l' ls'].
      * destruct IH as [(body & -> & H)|[Hne H]].
        -- left. exists (c :: body). split; [reflexivity|].
           intros [K|K]; [congruence | auto].
        -- right. split; [discriminate|]. intros [K|K]; [congruence | auto].
      * destruct IH as [(body & -> & H) F]. split; [|exact F].
        exists (c :: body). split; [reflexivity|].
        intros [K|K]; [congruence | auto].
Qed.

Lemma universal_newlines_keeps (s : pystr) :
  ~ In 13 s -> universal_newlines s = s.
Proof.
  induction s as [|c s IH]; simpl; intros H; [reflexivity|].
  destruct (N.eqb_spec c 13) as [->|E]; [exfalso; auto|].
  rewrite IH by auto. reflexivity.
Qed.

Lemma universal_newlines_bounded (n : nat) :
  forall s, (length s <= n)%nat -> ~ In 13 (universal_newlines s).
Proof.
  induction n as [|n IH]; intros s L.
  - destruct s; [intros [] | simpl in L; lia].
  - destruct s as [|c s]; [intros []|]. simpl in *.
    destruct (N.eqb_spec c 13) as [->|E].
    + destruct s as [|d s].
      * intros [K|[]]. discriminate K.
      * destruct (d =? 10); intros [K|K]; try discriminate K;
          revert K; apply IH; simpl in *; lia.
    + intros [K|K]; [congruence|]. revert K. apply IH. lia.
Qed.

Lemma universal_newlines_no_cr (s : pystr) : ~ In 13 (universal_newlines s).
Proof. apply (@universal_newlines_bounded (length s) s). lia. Qed.

Lemma readlines_no_cr (content l : pystr) :
  In l (readlines content) -> ~ In 13 l.
Proof.
  unfold readlines. intros H K.
  apply (universal_newlines_no_cr content).
  rewrite <- (concat_split_lines (universal_newlines content)).
  apply in_concat. eauto.
Qed.

(** ** The replaced line is itself an API_KEY line *)

Lemma lstrip_app_kept (a b : pystr) (c : N) (b' : pystr) :
  b = c :: b' -> isspace c = false -> lstrip (a ++ b) = lstrip a ++ b.
Proof.
  intros -> Hc. induction a as [|x a IH]; simpl.
  - rewrite Hc. reflexivity.
  - destruct (isspace x); [exact IH | reflexivity].
Qed.

Lemma strip_keeps_prefix (p t : pystr) (first last : N) (body front : pystr) :
  p = first :: body -> isspace first = false ->
  p = front ++ [last] -> isspace last = false ->
  strip (p ++ t) = p ++ rstrip t.
Proof.
  intros Ep Hf El Hl. unfold strip.
  assert (L : lstrip (p ++ t) = p ++ t).
  { rewrite Ep. simpl. rewrite Hf. reflexivity. }
  rewrite L. unfold rstrip. rewrite rev_app_distr.
  rewrite (@lstrip_app_kept (rev t) (rev p) last (rev front)).
  - rewrite rev_app_distr, rev_involutive. reflexivity.
  - rewrite El, rev_app_distr. reflexivity.
  - exact Hl.
Qed.

Lemma startswith_app (p u : pystr) : startswith (p ++ u) p = true.
Proof.
  induction p as [|c p IH]; simpl; [reflexivity|].
  rewrite N.eqb_refl, IH. reflexivity.
Qed.

Lemma key_line_is_key_line (api_key : pystr) : is_key_line (key_line api_key) = true.
Proof.
  unfold is_key_line, key_line.
  rewrite (@strip_keeps_prefix (str "API_KEY=") (api_key ++ [10]) (ord "A") (ord "=")
             (str "PI_KEY=") (str "API_KEY")) by reflexivity.
  apply startswith_app.
Qed.

Lemma key_line_terminated (api_key : pystr) :
  ~ In 10 api_key -> terminated (key_line api_key).
Proof.
  intros H. exists (str "API_KEY=" ++ api_key). split.
  - unfold key_line. rewrite <- app_assoc. reflexivity.
  - rewrite in_app_iff. intros [K|K]; [|auto].
    vm_compute in K. repeat (destruct K as [K|K]; [discriminate K|]). exact K.
Qed.

Lemma replaced_file_lines (api_key : pystr) (ls : list pystr) :
  ~ In 10 api_key -> file_lines ls ->
  file_lines (map (fun l => if is_key_line l then key_line api_key else l) ls).
Proof.
  intros H. induction ls as [|l rest IH]; simpl; [auto|].
  destruct rest as [|l' rest']; simpl in *.
  - destruct (is_key_line l); [left; apply key_line_terminated, H | auto].
  - intros [T F]. split; [|apply IH, F].
    destruct (is_key_line l); [apply key_line_terminated, H | exact T].
Qed.

Lemma replaced_no_cr (api_key : pystr) (ls : list pystr) :
  ~ In 13 api_key -> (forall l, In l ls -> ~ In 13 l) ->
  ~ In 13 (concat (map (fun l => if is_key_line l then key_line api_key else l) ls)).
Proof.
  intros H Hls K. apply in_concat in K as (l & Hl & K).
  apply in_map_iff in Hl as (l0 & <- & Hl0).
  destruct (is_key_line l0).
  - unfold key_line in K. rewrite !in_app_iff in K. destruct K as [K|[K|K]].
    + vm_compute in K. repeat (destruct K as [K|K]; [discriminate K|]). exact K.
    + auto.
    + destruct K as [K|[]]. discriminate K.
  - apply (Hls l0 Hl0 K).
Qed.

Lemma single_line_no_break (api_key : pystr) :
  single_line api_key = true -> ~ In 10 api_key /\ ~ In 13 api_key.
Proof.
  unfold single_line. rewrite forallb_forall. intros H.
  split; intros K; apply H in K; discriminate K.
Qed.

Lemma replaced_lines_read_back (api_key content : pystr) :
  single_line api_key = true ->
  readlines (concat (fst (replace_api_key_lines api_key (readlines content)))) =
  fst (replace_api_key_lines api_key (readlines content)).
Proof.
  intros H. apply single_line_no_break in H as [Hn Hr].
  rewrite replace_api_key_lines_eq. simpl.
  unfold readlines at 1.
  rewrite universal_newlines_keeps.
  - apply split_lines_concat, replaced_file_lines; [exact Hn|].
    apply split_lines_file_lines.
  - apply replaced_no_cr; [exact Hr|]. intros l. apply readlines_no_cr.
Qed.

(** X13.  Reading a file as lines loses no character (the lines put together
    are the content, carriage returns read as newlines), and what
    [update_env_file] writes reads back as the very lines it wrote when the
    key holds no line break. *)
Theorem written_lines_read_back (api_key content : pystr) :
  single_line api_key = true ->
  concat (readlines content) = universal_newlines content /\
  readlines (concat (fst (replace_api_key_lines api_key (readlines content)))) =
  fst (replace_api_key_lines api_key (readlines content)).
Proof.
  intros H. split.
  - apply concat_split_lines.
  - apply replaced_lines_read_back, H.
Qed.

Lemma existsb_replaced (api_key : pystr) (ls : list pystr) :
  existsb is_key_line (map (fun l => if is_key_line l then key_line api_key else l) ls) =
  existsb is_key_line ls.
Proof.
  induction ls as [|l ls IH]; simpl; [reflexivity|].
  rewrite IH. destruct (is_key_line l) eqn:E.
  - rewrite key_line_is_key_line. reflexivity.
  - rewrite E. reflexivity.
Qed.

(** X14.  The last update wins: updating the file written by an earlier
    update (whose key holds no line break) gives the same lines, and the
    same verdict, as updating the original file; in particular updating
    twice with the same key writes the same text twice. *)
Theorem replace_api_key_last_wins (first_key second_key content : pystr) :
  single_line first_key = true ->
  replace_api_key_lines second_key
    (readlines (concat (fst (replace_api_key_lines first_key (readlines content))))) =
  replace_api_key_lines second_key (readlines content).
Proof.
  intros H. rewrite (@replaced_lines_read_back first_key content H).
  rewrite !replace_api_key_lines_eq. cbn [fst].
  rewrite existsb_replaced, map_map. f_equal.
  apply map_ext. intros l. destruct (is_key_line l) eqn:E.
  - rewrite key_line_is_key_line. reflexivity.
  - rewrite E. reflexivity.
Qed.

Section KeyGeneratorProperties.

Variable filesystem : Type.
Variable os_path_exists : filesystem -> pystr -> bool.
Variable read_file : filesystem -> pystr -> pystr + exn.
Variable write_file : filesystem -> pystr -> pystr -> filesystem * option exn.
Variable token_urlsafe : Z -> pystr.
Variable str_lower : pystr -> pystr.

(** X15.  [update_env_file] returns [False] and leaves the file system as it
    is, without opening anything for writing, when the file does not exist,
    cannot be read, or holds no line whose stripped form starts with
    "API_KEY=". *)
Theorem update_env_file_leaves_file (fs : filesystem) (env_path api_key : pystr) :
  os_path_exists fs env_path = false \/
  (exists e, read_file fs env_path = inr e) \/
  (exists content, read_file fs env_path = inl content /\
                   existsb is_key_line (readlines content) = false) ->
  snd (fst (update_env_file os_path_exists read_file write_file fs env_path api_key)) = false /\
  snd (update_env_file os_path_exists read_file write_file fs env_path api_key) = fs.
Proof.
  unfold update_env_file. intros H.
  destruct (os_path_exists fs env_path) eqn:X; cbn [negb]; [|auto].
  destruct H as [H|[(e & H)|(content & H & K)]]; [discriminate H| |]; rewrite H.
  - auto.
  - rewrite replace_api_key_lines_eq, K. auto.
Qed.

(** X16.  [update_env_file] returns [True] exactly when the file exists, can
    be read, holds an API_KEY line and the write does not raise; what it
    writes is the lines read with every API_KEY line replaced, and it prints
    nothing. *)
Theorem update_env_file_success (fs : filesystem) (env_path api_key : pystr) :
  (snd (fst (update_env_file os_path_exists read_file write_file fs env_path api_key)) = true <->
   os_path_exists fs env_path = true /\
   exists content,
     read_file fs env_path = inl content /\
     existsb is_key_line (readlines content) = true /\
     snd (write_file fs env_path
            (concat (map (fun l => if is_key_line l then key_line api_key else l)
                         (readlines content)))) = None) /\
  (forall content,
      os_path_exists fs env_path = true ->
      read_file fs env_path = inl content ->
      existsb is_key_line (readlines content) = true ->
      snd (write_file fs env_path
             (concat (map (fun l => if is_key_line l then key_line api_key else l)
                          (readlines content)))) = None ->
      update_env_file os_path_exists read_file write_file fs env_path api_key =
      ([], true,
       fst (write_file fs env_path
              (concat (map (fun l => if is_key_line l then key_line api_key else l)
                           (readlines content)))))).
Proof.
  unfold update_env_file. split.
  - destruct (os_path_exists fs env_path) eqn:X; cbn [negb].
    + destruct (read_file fs env_path) as [content|e] eqn:R.
      * rewrite replace_api_key_lines_eq.
        destruct (existsb is_key_line (readlines content)) eqn:K; cbn [negb].
        -- destruct (write_file fs env_path _) as [fs' [e|]] eqn:W; cbn [fst snd]; split.
           ++ discriminate.
           ++ intros (_ & c & E & _ & S). injection E as <-.
              rewrite W in S. discriminate S.
           ++ intros _. split; [reflexivity|]. exists content. rewrite W. auto.
           ++ reflexivity.
        -- cbn [fst snd]. split; [discriminate|].
           intros (_ & c & E & K' & _). injection E as <-. congruence.
      * cbn [fst snd]. split; [discriminate|]. intros (_ & c & E & _). discriminate E.
    + cbn [fst snd]. split; [discriminate|]. intros (E & _). discriminate E.
  - intros content X R K W. rewrite X, R. cbn [negb].
    rewrite replace_api_key_lines_eq, K. cbn [negb].
    destruct (write_file fs env_path _) as [fs' [e|]]; [discriminate W | reflexivity].
Qed.

(** X17.  The script changes nothing unless the answer, stripped and
    lower-cased, is "y" or "yes": any other answer exits with code 0, an
    error or Ctrl-C at the prompt exits with code 1, and in each case the
    file system is as it was. *)
Theorem script_declined (fs : filesystem) (script_dir : pystr) :
  (forall line,
      str_lower (strip line) <> str "y" -> str_lower (strip line) <> str "yes" ->
      snd (fst (script os_path_exists read_file write_file token_urlsafe str_lower
                       fs script_dir (Typed line))) = 0%Z /\
      snd (script os_path_exists read_file write_file token_urlsafe str_lower
                  fs script_dir (Typed line)) = fs) /\
  (forall e,
      snd (fst (script os_path_exists read_file write_file token_urlsafe str_lower
                       fs script_dir (InputRaised e))) = 1%Z /\
      snd (script os_path_exists read_file write_file token_urlsafe str_lower
                  fs script_dir (InputRaised e)) = fs) /\
  snd (fst (script os_path_exists read_file write_file token_urlsafe str_lower
                   fs script_dir KeyboardInterrupt)) = 1%Z /\
  snd (script os_path_exists read_file write_file token_urlsafe str_lower
              fs script_dir KeyboardInterrupt) = fs.
Proof.
  split; [|split; [|split]]; try reflexivity.
  - intros line Hy Hyes. unfold script, main.
    rewrite (str_eqb_neq Hy), (str_eqb_neq Hyes). split; reflexivity.
  - intros e. split; reflexivity.
Qed.

(** X18.  When the answer is "y" or "yes" the script updates ".env" in its
    own directory with the key from [token_urlsafe(32)]: the file system it
    leaves is the one [update_env_file] leaves, and the exit code is 0 if
    the update succeeded and 1 if it failed. *)
Theorem script_accepted (fs : filesystem) (script_dir line : pystr) :
  str_lower (strip line) = str "y" \/ str_lower (strip line) = str "yes" ->
  snd (script os_path_exists read_file write_file token_urlsafe str_lower
              fs script_dir (Typed line)) =
  snd (update_env_file os_path_exists read_file write_file fs
                       (path_join script_dir (str ".env")) (token_urlsafe 32)) /\
  snd (fst (script os_path_exists read_file write_file token_urlsafe str_lower
                   fs script_dir (Typed line))) =
  if snd (fst (update_env_file os_path_exists read_file write_file fs
                               (path_join script_dir (str ".env")) (token_urlsafe 32)))
  then 0%Z else 1%Z.
Proof.
  intros H. unfold script, main, generate_api_key.
  assert (C : str_eqb (str_lower (strip line)) (str "y")
              || str_eqb (str_lower (strip line)) (str "yes") = true).
  { destruct H as [-> | ->]; reflexivity. }
  rewrite C. cbn [negb].
  destruct (update_env_file os_path_exists read_file write_file fs
              (path_join script_dir (str ".env")) (token_urlsafe 32))
    as [[printed ok] fs'].
  destruct ok; split; reflexivity.
Qed.

End KeyGeneratorProperties.

(** * Properties of the test client's questions *)

Lemma rstrip_prefix (u : pystr) :
  exists ws, u = rstrip u ++ ws /\ forallb isspace ws = true.
Proof.
  destruct (lstrip_prefix (rev u)) as (ws & E & H).
  exists (rev ws). split; [|apply forallb_rev, H].
  unfold rstrip. rewrite <- rev_app_distr, <- E, rev_involutive. reflexivity.
Qed.

Lemma strip_first (s : pystr) (c : N) (t : pystr) :
  strip s = c :: t -> isspace c = false.
Proof.
  unfold strip. intros H.
  destruct (rstrip_prefix (lstrip s)) as (ws & E & _).
  rewrite H in E. simpl in E. apply (lstrip_head s E).
Qed.

Lemma strip_idempotent (s : pystr) : strip (strip s) = strip s.
Proof.
  destruct (strip s) as [|c t] eqn:E; [reflexivity|].
  destruct (exists_last (l:=c :: t)) as (front & last & El); [discriminate|].
  rewrite <- (app_nil_r (c :: t)) at 1.
  apply (@strip_surrounded [] [] (c :: t) t c last); auto.
  - apply (strip_first s E).
  - eauto.
  - apply (@strip_last s front last). rewrite E. exact El.
Qed.

Lemma lstrip_char_head (ch : N) (s : pystr) (c : N) (t : pystr) :
  lstrip_char ch s = c :: t -> c <> ch.
Proof.
  induction s as [|a s IH]; simpl; [discriminate|].
  destruct (N.eqb_spec a ch) as [->|E]; [exact IH|].
  intros H. injection H as <- _. exact E.
Qed.

Lemma rstrip_char_last (ch : N) (s front : pystr) : rstrip_char ch s <> front ++ [ch].
Proof.
  unfold rstrip_char. intros H.
  apply (f_equal (@rev N)) in H.
  rewrite rev_involutive, rev_app_distr in H. simpl in H.
  apply lstrip_char_head in H. contradiction.
Qed.

(** X19.  When the four answers are typed and none is blank,
    [get_user_input] returns them stripped, and the base URL also without
    its trailing slashes; the values returned have no whitespace around them,
    the key, the address and the MAC are not empty, and all four questions
    were asked. *)
Theorem get_user_input_returns (answers : nat -> input_result) (l0 l1 l2 l3 : pystr) :
  answers 0%nat = Typed l0 -> answers 1%nat = Typed l1 ->
  answers 2%nat = Typed l2 -> answers 3%nat = Typed l3 ->
  truthy (PyStr (strip l0)) = true -> truthy (PyStr (strip l1)) = true ->
  truthy (PyStr (strip l2)) = true -> truthy (PyStr (strip l3)) = true ->
  snd (get_user_input answers) =
  Answers (rstrip_char (ord "/") (strip l0)) (strip l1) (strip l2) (strip l3) /\
  (forall front, rstrip_char (ord "/") (strip l0) <> front ++ [ord "/"]) /\
  strip (strip l1) = strip l1 /\ strip (strip l2) = strip l2 /\
  strip (strip l3) = strip l3 /\
  strip l1 <> [] /\ strip l2 <> [] /\ strip l3 <> [] /\
  length (prompts (fst (get_user_input answers))) = 4%nat.
Proof.
  intros A0 A1 A2 A3 T0 T1 T2 T3.
  unfold get_user_input. rewrite A0, A1, A2, A3, T0, T1, T2, T3. cbn [negb snd fst].
  repeat split; auto using strip_idempotent, rstrip_char_last.
  - intros E. rewrite E in T1. discriminate T1.
  - intros E. rewrite E in T2. discriminate T2.
  - intros E. rewrite E in T3. discriminate T3.
Qed.

(** X20.  The first blank answer ends [get_user_input] with exit code 1:
    when the answers before the n-th are typed and not blank and the n-th is
    empty or whitespace only, nothing is returned and no further question is
    asked. *)
Theorem get_user_input_blank (answers : nat -> input_result) (n : nat) (blank : pystr) :
  (n < 4)%nat ->
  (forall i, (i < n)%nat ->
             exists line, answers i = Typed line /\ truthy (PyStr (strip line)) = true) ->
  answers n = Typed blank -> forallb isspace blank = true ->
  snd (get_user_input answers) = Stopped (SysExit 1) /\
  length (prompts (fst (get_user_input answers))) = S n.
Proof.
  intros Hn Hbefore Hblank Hs.
  assert (B : strip blank = []).
  { unfold strip. rewrite <- (app_nil_r blank), lstrip_spaces by exact Hs. reflexivity. }
  unfold get_user_input.
  destruct n as [|[|[|[|n]]]]; try lia.
  - rewrite Hblank, B. split; reflexivity.
  - destruct (Hbefore 0%nat) as (x0 & E0 & T0); [lia|].
    rewrite E0, T0, Hblank, B. split; reflexivity.
  - destruct (Hbefore 0%nat) as (x0 & E0 & T0); [lia|].
    destruct (Hbefore 1%nat) as (x1 & E1 & T1); [lia|].
    rewrite E0, T0, E1, T1, Hblank, B. split; reflexivity.
  - destruct (Hbefore 0%nat) as (x0 & E0 & T0); [lia|].
    destruct (Hbefore 1%nat) as (x1 & E1 & T1); [lia|].
    destruct (Hbefore 2%nat) as (x2 & E2 & T2); [lia|].
    rewrite E0, T0, E1, T1, E2, T2, Hblank, B. split; reflexivity.
Qed.

(** * The further properties on sample inputs *)



Lemma ping_internal_error_witness :
  truthy (PyStr sample_key) = true /\
  snd (snd (GET_ping sample_key (ping_raises "No such file or directory: 'ping'")
                     (str "10.0.0.1") (sample_request (Some sample_key) PyNone))) = 500%Z.
Proof.
  split; [reflexivity|].
  apply (proj1 (@ping_internal_error sample_key eq_refl
                  (ping_raises "No such file or directory: 'ping'")
                  (str "10.0.0.1") (sample_request (Some sample_key) PyNone))).
  split; [reflexivity|]. split; [reflexivity|].
  eexists. split; reflexivity.
Defined.

Lemma ping_subprocess_calls_witness :
  truthy (PyStr sample_key) = true /\
  subprocess_calls (fst (GET_ping sample_key (ping_exits 1) (str "10.0.0.1")
                                  (sample_request (Some sample_key) PyNone))) =
  [([str "ping"; str "-c"; str "1"; str "-W"; str "2"; str "10.0.0.1"], 5%Z)].
Proof.
  split; [reflexivity|].
  apply (proj1 (@ping_subprocess_calls sample_key eq_refl (ping_exits 1)
                  (str "10.0.0.1") (sample_request (Some sample_key) PyNone)));
    reflexivity.
Defined.

Lemma ping_forwards_untrimmed_witness :
  truthy (PyStr sample_key) = true /\
  forallb isspace [32; 10] = true /\
  ipv4_layout (str "10.0.0.1") = true /\
  subprocess_calls (fst (GET_ping sample_key (ping_exits 0) ([32; 10] ++ str "10.0.0.1" ++ [32])
                                  (sample_request (Some sample_key) PyNone))) =
  [(ping_argv ([32; 10] ++ str "10.0.0.1" ++ [32]), 5%Z)].
Proof.
  split; [reflexivity|]. split; [reflexivity|]. split; [reflexivity|].
  apply (@ping_forwards_untrimmed sample_key eq_refl (ping_exits 0)
           (sample_request (Some sample_key) PyNone) [32; 10] (str "10.0.0.1") [32]
           eq_refl eq_refl eq_refl eq_refl).
Defined.

Lemma ping_hides_exception_text_witness :
  same_run_outcome (ping_raises "disk error" (ping_argv (str "10.0.0.1")) 5%Z)
                   (ping_raises "out of memory" (ping_argv (str "10.0.0.1")) 5%Z) /\
  snd (GET_ping sample_key (ping_raises "disk error") (str "10.0.0.1")
                (sample_request (Some sample_key) PyNone)) =
  snd (GET_ping sample_key (ping_raises "out of memory") (str "10.0.0.1")
                (sample_request (Some sample_key) PyNone)).
Proof.
  split; [reflexivity|].
  apply (@ping_hides_exception_text sample_key (ping_raises "disk error")
           (ping_raises "out of memory") (str "10.0.0.1")
           (sample_request (Some sample_key) PyNone)).
  reflexivity.
Defined.

Lemma wake_on_lan_hides_exception_text_witness :
  (forall mac, same_send_outcome (send_fails "network down" mac)
                                 (send_fails "permission denied" mac)) /\
  snd (POST_wol sample_key (send_fails "network down") sample_format
         (sample_request (Some sample_key)
            (PyDict [(str "mac_address", PyStr (str "AA:BB:CC:DD:EE:FF"))]))) =
  snd (POST_wol sample_key (send_fails "permission denied") sample_format
         (sample_request (Some sample_key)
            (PyDict [(str "mac_address", PyStr (str "AA:BB:CC:DD:EE:FF"))]))).
Proof.
  split; [intros mac; exact I|].
  apply (@wake_on_lan_hides_exception_text sample_key (send_fails "network down")
           sample_format (send_fails "permission denied")).
  intros mac. exact I.
Defined.

Lemma wake_on_lan_non_object_body_witness :
  truthy (PyStr sample_key) = true /\
  truthy (PyList [PyStr (str "AA:BB:CC:DD:EE:FF")]) = true /\
  snd (POST_wol sample_key send_succeeds sample_format
         (sample_request (Some sample_key) (PyList [PyStr (str "AA:BB:CC:DD:EE:FF")]))) =
  (error_body "An unexpected error occurred", 500%Z).
Proof.
  split; [reflexivity|]. split; [reflexivity|].
  rewrite (proj1 (@wake_on_lan_non_object_body sample_key eq_refl send_succeeds sample_format
                    (sample_request (Some sample_key)
                       (PyList [PyStr (str "AA:BB:CC:DD:EE:FF")]))
                    eq_refl eq_refl (fun d H => eq_ind (PyList [PyStr (str "AA:BB:CC:DD:EE:FF")])
                                                  (fun v => match v with PyList _ => True | _ => False end)
                                                  I (PyDict d) H))).
  reflexivity.
Defined.

Lemma wake_on_lan_sent_packets_witness :
  truthy (PyStr sample_key) = true /\
  sent_packets (fst (POST_wol sample_key send_succeeds sample_format
                       (sample_request (Some sample_key)
                          (PyDict [(str "mac_address", PyStr (str "aabbccddeeff"))])))) =
  [PyStr (str "aabbccddeeff")].
Proof.
  split; [reflexivity|].
  apply (@wake_on_lan_sent_packets sample_key eq_refl send_succeeds sample_format
           (sample_request (Some sample_key)
              (PyDict [(str "mac_address", PyStr (str "aabbccddeeff"))]))
           (PyStr (str "aabbccddeeff"))).
  left. reflexivity.
Defined.


Lemma written_lines_read_back_witness :
  single_line sample_key = true /\
  readlines (concat (fst (replace_api_key_lines sample_key (readlines sample_env)))) =
  fst (replace_api_key_lines sample_key (readlines sample_env)).
Proof.
  split; [reflexivity|].
  apply (proj2 (written_lines_read_back sample_key sample_env eq_refl)).
Defined.

Lemma replace_api_key_last_wins_witness :
  single_line sample_key = true /\
  replace_api_key_lines (str "second")
    (readlines (concat (fst (replace_api_key_lines sample_key (readlines sample_env))))) =
  replace_api_key_lines (str "second") (readlines sample_env).
Proof.
  split; [reflexivity|].
  apply (replace_api_key_last_wins sample_key (str "second") sample_env eq_refl).
Defined.

Lemma update_env_file_leaves_file_witness :
  sample_exists [] (str "/opt/pinet/.env") = false /\
  snd (update_env_file sample_exists sample_read sample_write []
                       (str "/opt/pinet/.env") sample_key) = [].
Proof.
  split; [reflexivity|].
  apply (proj2 (@update_env_file_leaves_file sample_fs sample_exists sample_read sample_write
                  [] (str "/opt/pinet/.env") sample_key (or_introl eq_refl))).
Defined.

Lemma script_accepted_witness :
  sample_lower (strip (str " yes ")) = str "yes" /\
  snd (fst (script sample_exists sample_read sample_write sample_token sample_lower
                   [(str "/opt/pinet/.env", sample_env)] (str "/opt/pinet")
                   (Typed (str " yes ")))) =
  if snd (fst (update_env_file sample_exists sample_read sample_write
                               [(str "/opt/pinet/.env", sample_env)]
                               (path_join (str "/opt/pinet") (str ".env")) (sample_token 32)))
  then 0%Z else 1%Z.
Proof.
  split; [reflexivity|].
  apply (proj2 (@script_accepted sample_fs sample_exists sample_read sample_write
                  sample_token sample_lower
                  [(str "/opt/pinet/.env", sample_env)] (str "/opt/pinet") (str " yes ")
                  (or_intror eq_refl))).
Defined.

Lemma get_user_input_returns_witness :
  truthy (PyStr (strip (str "http://192.168.1.50:5000/ "))) = true /\
  snd (get_user_input (typed_answers [str "http://192.168.1.50:5000/ "; str "secret";
                                      str " 8.8.8.8"; str "AA:BB:CC:DD:EE:FF"])) =
  Answers (str "http://192.168.1.50:5000") (str "secret") (str "8.8.8.8")
          (str "AA:BB:CC:DD:EE:FF").
Proof.
  split; [reflexivity|].
  apply (proj1 (@get_user_input_returns
                  (typed_answers [str "http://192.168.1.50:5000/ "; str "secret";
                                  str " 8.8.8.8"; str "AA:BB:CC:DD:EE:FF"])
                  (str "http://192.168.1.50:5000/ ") (str "secret")
                  (str " 8.8.8.8") (str "AA:BB:CC:DD:EE:FF")
                  eq_refl eq_refl eq_refl eq_refl eq_refl eq_refl eq_refl eq_refl)).
Defined.

Lemma get_user_input_blank_witness :
  forallb isspace (str "   ") = true /\
  snd (get_user_input (typed_answers [str "http://192.168.1.50:5000"; str "   "])) =
  Stopped (SysExit 1) /\
  length (prompts (fst (get_user_input
                          (typed_answers [str "http://192.168.1.50:5000"; str "   "])))) = 2%nat.
Proof.
  split; [reflexivity|].
  apply (@get_user_input_blank
           (typed_answers [str "http://192.168.1.50:5000"; str "   "]) 1 (str "   ")).
  - lia.
  - intros i Hi. assert (E : i = 0%nat) by lia. subst i.
    eexists. split; reflexivity.
  - reflexivity.
  - reflexivity.
Defined.

Example update_sample_env :
  update_env_file sample_exists sample_read sample_write
                  [(str "/opt/pinet/.env", sample_env)] (str "/opt/pinet/.env") (str "new") =
  ([], true,
   [(str "/opt/pinet/.env",
     str "# PiNet" ++ [10] ++ str "API_KEY=new" ++ [10] ++ str "API_PORT=5000" ++ [10])]).
Proof. reflexivity. Qed.

Example readlines_mixed_endings :
  readlines (str "a" ++ [13; 10] ++ str "b" ++ [13] ++ str "c" ++ [10; 13; 10; 13] ++ str "d") =
  [str "a" ++ [10]; str "b" ++ [10]; str "c" ++ [10]; [10]; [10]; str "d"].
Proof. reflexivity. Qed.

Example indented_and_commented_lines :
  map is_key_line [str "  API_KEY=x" ++ [10]; str "# API_KEY=x" ++ [10];
                   str "API_KEY =x" ++ [10]; str "API_KEY="; str "export API_KEY=x"] =
  [true; false; false; true; false].
Proof. reflexivity. Qed.

Example path_join_cases :
  path_join (str "/opt/pinet") (str ".env") = str "/opt/pinet/.env" /\
  path_join (str "/") (str ".env") = str "/.env" /\
  path_join (str "") (str ".env") = str ".env".
Proof. repeat split. Qed.
